(** * zynmidicontroller: protocol translator for Novation pad controllers

    A shallow embedding of [zynlibs/zynmidicontroller/zynmidicontroller.cpp].
    The globals of the translation unit become the fields of one [state]
    record that every function threads explicitly; the JACK buffers and the
    OSC endpoints, which live outside the library, are represented by the
    data the library writes into them.

    Embedded are the functions the statements below speak about:
    [isDeviceConnected], [sendDeviceMidi], [sendDeviceMidi3],
    [sendPadStatusToDevice], [selectMode], [onOscStatus], [enableDevice],
    [initLaunchkey], [sendMidi], [protocolHandler], [onJackProcess],
    [onJackConnect], [setMidiChannel], [selectKnobs] and [selectPads].

    The embedding is sequential: one library function runs at a time.  The
    flag [g_bMutex] is clear whenever no function body is executing (each
    body that sets it clears it before returning), so the wait loops
    [while(g_bMutex) sleep] exit at once and the set/clear pair around
    [push_back] and around the drain loop leaves no trace in the state. *)

From Stdlib Require Import ZArith Lia Bool.
From stdpp Require Import base list strings.

Local Open Scope Z_scope.

(** ** Machine integers *)

(** Conversions to the unsigned C types used by the source. *)
Definition u8 (x : Z) : Z := x mod 256.
Definition u16 (x : Z) : Z := x mod 65536.
Definition u32 (x : Z) : Z := x mod 4294967296.

(** C truth value of an integer. *)
Definition truthy (x : Z) : bool := negb (x =? 0).

(** ** Data living outside the library *)

(** Modelled from the spec: [MIDI_MESSAGE] is declared in
    zynmidicontroller.h, which is not among the sources.  Following the
    Message Envelope of the data model it is an ordered sequence of octets
    together with its size; the size is the length of the sequence. *)
Definition MIDI_MESSAGE : Type := list Z.

Definition msg_size (m : MIDI_MESSAGE) : Z := Z.of_nat (length m).

(** A JACK MIDI port buffer: an opaque description of its room and the
    events written into it so far, oldest first. *)
Record jack_midi_buffer : Type := {
  buf_room : Z;
  buf_events : list (list Z)
}.

Definition jack_midi_clear_buffer (b : jack_midi_buffer) : jack_midi_buffer :=
  {| buf_room := buf_room b; buf_events := [] |}.

(** Filling the region returned by a successful reservation. *)
Definition buf_write (b : jack_midi_buffer) (bytes : list Z) : jack_midi_buffer :=
  {| buf_room := buf_room b; buf_events := buf_events b ++ [bytes] |}.

(** One concrete reservation policy, used to run the functions on examples:
    a buffer has [buf_room] bytes in all and grants a region while the
    bytes already written and the new ones fit. *)
Definition reserve_by_room (b : jack_midi_buffer) (when bytes : Z) : bool :=
  foldr (fun ev acc => Z.of_nat (length ev) + acc) 0 (buf_events b) + bytes <=? buf_room b.

(** An incoming event; [size] of the C struct is the length of [buffer]. *)
Record jack_midi_event_t : Type := {
  time : Z;
  buffer : list Z
}.

Definition size (e : jack_midi_event_t) : Z := Z.of_nat (length (buffer e)).

(** A JACK port as the connection callback sees it: the pointer returned by
    [jack_port_by_id] and the aliases returned by [jack_port_get_aliases]. *)
Record jack_port_t : Type := {
  port_ptr : Z;
  port_aliases : list string
}.

(** OSC traffic. *)
Inductive osc_arg : Type :=
| OscInt (i : Z)
| OscStr (s : string).

Record osc_message : Type := {
  osc_path : string;
  osc_types : string;
  osc_args : list osc_arg
}.

(** [g_oscServer]: the registered (path, typespec) methods and whether the
    server thread runs. *)
Record osc_server : Type := {
  srv_methods : list (string * string);
  srv_running : bool
}.

(** ** The globals *)

Record state : Type := {
  g_pJackClient : bool;          (* client pointer is non-NULL *)
  g_pInputPortDevice : Z;
  g_pOutputPortDevice : Z;
  g_pOutputPort : Z;
  g_nInputProtocol : Z;          (* unsigned int *)
  g_nOutputProtocol : Z;         (* unsigned int *)
  g_nProtocol : Z;               (* unsigned int *)
  g_bShift : bool;
  g_nPadColour : list Z;         (* uint8_t [64] *)
  g_nCCoffset : Z;               (* int *)
  g_nMidiChannel : Z;            (* uint8_t *)
  g_nPlayState : Z;              (* uint8_t *)
  g_vSendQueue : list MIDI_MESSAGE;
  g_oscServer : osc_server;
  g_oscClient : list osc_message (* messages sent so far, oldest first *)
}.

(** The value [-1] stored in an [unsigned int]. *)
Definition UNSET : Z := u32 (-1).

Definition set_g_nInputProtocol (v : Z) (s : state) : state :=
  {| g_pJackClient := g_pJackClient s; g_pInputPortDevice := g_pInputPortDevice s;
     g_pOutputPortDevice := g_pOutputPortDevice s; g_pOutputPort := g_pOutputPort s;
     g_nInputProtocol := v; g_nOutputProtocol := g_nOutputProtocol s;
     g_nProtocol := g_nProtocol s; g_bShift := g_bShift s;
     g_nPadColour := g_nPadColour s; g_nCCoffset := g_nCCoffset s;
     g_nMidiChannel := g_nMidiChannel s; g_nPlayState := g_nPlayState s;
     g_vSendQueue := g_vSendQueue s; g_oscServer := g_oscServer s;
     g_oscClient := g_oscClient s |}.

Definition set_g_nOutputProtocol (v : Z) (s : state) : state :=
  {| g_pJackClient := g_pJackClient s; g_pInputPortDevice := g_pInputPortDevice s;
     g_pOutputPortDevice := g_pOutputPortDevice s; g_pOutputPort := g_pOutputPort s;
     g_nInputProtocol := g_nInputProtocol s; g_nOutputProtocol := v;
     g_nProtocol := g_nProtocol s; g_bShift := g_bShift s;
     g_nPadColour := g_nPadColour s; g_nCCoffset := g_nCCoffset s;
     g_nMidiChannel := g_nMidiChannel s; g_nPlayState := g_nPlayState s;
     g_vSendQueue := g_vSendQueue s; g_oscServer := g_oscServer s;
     g_oscClient := g_oscClient s |}.

Definition set_g_nProtocol (v : Z) (s : state) : state :=
  {| g_pJackClient := g_pJackClient s; g_pInputPortDevice := g_pInputPortDevice s;
     g_pOutputPortDevice := g_pOutputPortDevice s; g_pOutputPort := g_pOutputPort s;
     g_nInputProtocol := g_nInputProtocol s; g_nOutputProtocol := g_nOutputProtocol s;
     g_nProtocol := v; g_bShift := g_bShift s;
     g_nPadColour := g_nPadColour s; g_nCCoffset := g_nCCoffset s;
     g_nMidiChannel := g_nMidiChannel s; g_nPlayState := g_nPlayState s;
     g_vSendQueue := g_vSendQueue s; g_oscServer := g_oscServer s;
     g_oscClient := g_oscClient s |}.

Definition set_g_bShift (v : bool) (s : state) : state :=
  {| g_pJackClient := g_pJackClient s; g_pInputPortDevice := g_pInputPortDevice s;
     g_pOutputPortDevice := g_pOutputPortDevice s; g_pOutputPort := g_pOutputPort s;
     g_nInputProtocol := g_nInputProtocol s; g_nOutputProtocol := g_nOutputProtocol s;
     g_nProtocol := g_nProtocol s; g_bShift := v;
     g_nPadColour := g_nPadColour s; g_nCCoffset := g_nCCoffset s;
     g_nMidiChannel := g_nMidiChannel s; g_nPlayState := g_nPlayState s;
     g_vSendQueue := g_vSendQueue s; g_oscServer := g_oscServer s;
     g_oscClient := g_oscClient s |}.

Definition set_g_nPadColour (v : list Z) (s : state) : state :=
  {| g_pJackClient := g_pJackClient s; g_pInputPortDevice := g_pInputPortDevice s;
     g_pOutputPortDevice := g_pOutputPortDevice s; g_pOutputPort := g_pOutputPort s;
     g_nInputProtocol := g_nInputProtocol s; g_nOutputProtocol := g_nOutputProtocol s;
     g_nProtocol := g_nProtocol s; g_bShift := g_bShift s;
     g_nPadColour := v; g_nCCoffset := g_nCCoffset s;
     g_nMidiChannel := g_nMidiChannel s; g_nPlayState := g_nPlayState s;
     g_vSendQueue := g_vSendQueue s; g_oscServer := g_oscServer s;
     g_oscClient := g_oscClient s |}.

Definition set_g_nCCoffset (v : Z) (s : state) : state :=
  {| g_pJackClient := g_pJackClient s; g_pInputPortDevice := g_pInputPortDevice s;
     g_pOutputPortDevice := g_pOutputPortDevice s; g_pOutputPort := g_pOutputPort s;
     g_nInputProtocol := g_nInputProtocol s; g_nOutputProtocol := g_nOutputProtocol s;
     g_nProtocol := g_nProtocol s; g_bShift := g_bShift s;
     g_nPadColour := g_nPadColour s; g_nCCoffset := v;
     g_nMidiChannel := g_nMidiChannel s; g_nPlayState := g_nPlayState s;
     g_vSendQueue := g_vSendQueue s; g_oscServer := g_oscServer s;
     g_oscClient := g_oscClient s |}.

Definition set_g_nMidiChannel (v : Z) (s : state) : state :=
  {| g_pJackClient := g_pJackClient s; g_pInputPortDevice := g_pInputPortDevice s;
     g_pOutputPortDevice := g_pOutputPortDevice s; g_pOutputPort := g_pOutputPort s;
     g_nInputProtocol := g_nInputProtocol s; g_nOutputProtocol := g_nOutputProtocol s;
     g_nProtocol := g_nProtocol s; g_bShift := g_bShift s;
     g_nPadColour := g_nPadColour s; g_nCCoffset := g_nCCoffset s;
     g_nMidiChannel := v; g_nPlayState := g_nPlayState s;
     g_vSendQueue := g_vSendQueue s; g_oscServer := g_oscServer s;
     g_oscClient := g_oscClient s |}.

Definition set_g_vSendQueue (v : list MIDI_MESSAGE) (s : state) : state :=
  {| g_pJackClient := g_pJackClient s; g_pInputPortDevice := g_pInputPortDevice s;
     g_pOutputPortDevice := g_pOutputPortDevice s; g_pOutputPort := g_pOutputPort s;
     g_nInputProtocol := g_nInputProtocol s; g_nOutputProtocol := g_nOutputProtocol s;
     g_nProtocol := g_nProtocol s; g_bShift := g_bShift s;
     g_nPadColour := g_nPadColour s; g_nCCoffset := g_nCCoffset s;
     g_nMidiChannel := g_nMidiChannel s; g_nPlayState := g_nPlayState s;
     g_vSendQueue := v; g_oscServer := g_oscServer s;
     g_oscClient := g_oscClient s |}.

Definition set_g_oscServer (v : osc_server) (s : state) : state :=
  {| g_pJackClient := g_pJackClient s; g_pInputPortDevice := g_pInputPortDevice s;
     g_pOutputPortDevice := g_pOutputPortDevice s; g_pOutputPort := g_pOutputPort s;
     g_nInputProtocol := g_nInputProtocol s; g_nOutputProtocol := g_nOutputProtocol s;
     g_nProtocol := g_nProtocol s; g_bShift := g_bShift s;
     g_nPadColour := g_nPadColour s; g_nCCoffset := g_nCCoffset s;
     g_nMidiChannel := g_nMidiChannel s; g_nPlayState := g_nPlayState s;
     g_vSendQueue := g_vSendQueue s; g_oscServer := v;
     g_oscClient := g_oscClient s |}.

Definition set_g_oscClient (v : list osc_message) (s : state) : state :=
  {| g_pJackClient := g_pJackClient s; g_pInputPortDevice := g_pInputPortDevice s;
     g_pOutputPortDevice := g_pOutputPortDevice s; g_pOutputPort := g_pOutputPort s;
     g_nInputProtocol := g_nInputProtocol s; g_nOutputProtocol := g_nOutputProtocol s;
     g_nProtocol := g_nProtocol s; g_bShift := g_bShift s;
     g_nPadColour := g_nPadColour s; g_nCCoffset := g_nCCoffset s;
     g_nMidiChannel := g_nMidiChannel s; g_nPlayState := g_nPlayState s;
     g_vSendQueue := g_vSendQueue s; g_oscServer := g_oscServer s;
     g_oscClient := v |}.

(** ** Initialised tables and colours *)

Definition g_sSupported : list string :=
  ["Launchkey-Mini-MK3-MIDI-2"; "Launchpad-Mini-MK3-MIDI-2"]%string.

Definition g_nSupportedQuant : Z := Z.of_nat (length g_sSupported).

Definition g_nDrumPads : list Z :=
  [40;41;42;43;44;45;46;47;48;49;50;51;36;37;38;39;40;41;42;43;44;45;46;47].

Definition g_nLKM3SessionPads : list Z :=
  [96;97;98;99;100;101;102;103;112;113;114;115;116;117;118;119].

Definition g_nLPM3SessionPads : list Z :=
  [81;82;83;84;85;86;87;88;
   71;72;73;74;75;76;77;78;
   61;62;63;64;65;66;67;68;
   51;52;53;54;55;56;57;58;
   41;42;43;44;45;46;47;48;
   31;32;33;34;35;36;37;38;
   21;22;23;24;25;26;27;28;
   11;12;13;14;15;16;17;18].

Definition g_nPadColours : list Z :=
  [67;35;9;47;105;63;94;126;40;81;8;45;28;95;104;44].

Definition g_nDrumColour : Z := 79.
Definition g_nDrumOnColour : Z := 90.
Definition g_nStartingColour : Z := 123.
Definition g_nStoppingColour : Z := 120.

(** Array read [a[i]]; every read in the source is within bounds. *)
Definition at_index (a : list Z) (i : Z) : Z := default 0 (a !! Z.to_nat i).

(** The globals as the static initialisers leave them, with the handles
    [init] obtained from JACK. *)
Definition initial_state (client : bool) (pIn pOutDev pOut : Z) : state :=
  {| g_pJackClient := client; g_pInputPortDevice := pIn;
     g_pOutputPortDevice := pOutDev; g_pOutputPort := pOut;
     g_nInputProtocol := UNSET; g_nOutputProtocol := UNSET;
     g_nProtocol := UNSET; g_bShift := false;
     g_nPadColour := replicate 64 0; g_nCCoffset := 0;
     g_nMidiChannel := 0; g_nPlayState := 0;
     g_vSendQueue := [];
     g_oscServer := {| srv_methods := []; srv_running := false |};
     g_oscClient := [] |}.

(** ** Sample ports for the worked examples *)

(** The library's own three ports, in the order [init] registers them. *)
Definition own_input_port : jack_port_t := {| port_ptr := 1; port_aliases := [] |}.
Definition own_device_output_port : jack_port_t := {| port_ptr := 2; port_aliases := [] |}.
Definition own_output_port : jack_port_t := {| port_ptr := 3; port_aliases := [] |}.

(** The two ends of a Launchkey Mini and of a Launchpad Mini. *)
Definition launchkey_port : jack_port_t :=
  {| port_ptr := 10; port_aliases := ["in-hw-1-0-0-Launchkey-Mini-MK3-MIDI-2"]%string |}.
Definition launchpad_port : jack_port_t :=
  {| port_ptr := 11; port_aliases := ["in-hw-2-0-0-Launchpad-Mini-MK3-MIDI-2"]%string |}.

(** The globals once [init] has succeeded. *)
Definition started : state := initial_state true 1 2 3.

(** ** Queueing messages for the device *)

(** [isDeviceConnected]: the returned flag and the globals afterwards. *)
Definition isDeviceConnected (s : state) : bool * state :=
  let s1 := if g_nInputProtocol s =? g_nOutputProtocol s
            then set_g_nProtocol (g_nInputProtocol s) s else s in
  (negb (g_nProtocol s1 =? UNSET), s1).

(** [sendDeviceMidi(data, size)]. *)
Definition sendDeviceMidi (data : list Z) (s : state) : state :=
  if (msg_size data <? 1) || (at_index data 0 <? 128) then s
  else set_g_vSendQueue (g_vSendQueue s ++ [data]) s.

(** [sendDeviceMidi3(status, value1, value2)]; the arguments are
    [uint8_t]. *)
Definition sendDeviceMidi3 (status value1 value2 : Z) (s : state) : state :=
  if (status <? 128) || ((value1 >? 127) && (value2 >? 127)) then s
  else set_g_vSendQueue (g_vSendQueue s ++ [[status; value1; value2]]) s.

(** ** OSC endpoints *)

Definition osc_send (path types : string) (args : list osc_arg) (s : state) : state :=
  set_g_oscClient
    (g_oscClient s ++ [{| osc_path := path; osc_types := types; osc_args := args |}]) s.

Definition same_method (path types : string) (m : string * string) : bool :=
  String.eqb (fst m) path && String.eqb (snd m) types.

Definition add_method (path types : string) (s : state) : state :=
  set_g_oscServer
    {| srv_methods := srv_methods (g_oscServer s) ++ [(path, types)];
       srv_running := srv_running (g_oscServer s) |} s.

Definition del_method (path types : string) (s : state) : state :=
  set_g_oscServer
    {| srv_methods :=
         List.filter (fun m => negb (same_method path types m)) (srv_methods (g_oscServer s));
       srv_running := srv_running (g_oscServer s) |} s.

Definition server_run (b : bool) (s : state) : state :=
  set_g_oscServer
    {| srv_methods := srv_methods (g_oscServer s); srv_running := b |} s.

(** [strstr(haystack, needle) != NULL]. *)
Fixpoint strstr (haystack needle : string) : bool :=
  String.prefix needle haystack
  || match haystack with
     | EmptyString => false
     | String _ rest => strstr rest needle
     end.

(** ** Public knob-bank and pad-mode selection *)

Definition setMidiChannel (channel : Z) (s : state) : state :=
  if channel <? 16 then set_g_nMidiChannel (u8 channel) s else s.

(** [selectKnobs(bank)], [bank] an [unsigned int]. *)
Definition selectKnobs (bank : Z) (s : state) : state :=
  if g_nProtocol s =? 0 then
    let '(connected, s1) := isDeviceConnected s in
    if connected && (bank <? 7)
    then sendDeviceMidi3 0xbf 9 (u8 bank) (set_g_nCCoffset bank s1)
    else s1
  else s.

(** [selectPads(mode)], [mode] an [unsigned int]. *)
Definition selectPads (mode : Z) (s : state) : state :=
  if g_nProtocol s =? 0 then
    let '(connected, s1) := isDeviceConnected s in
    if connected then sendDeviceMidi3 0xbf 3 (u8 mode) s1 else s1
  else s.

Section Translator.

(** Constants of constants.h, which is not among the sources.  They are
    compared against [unsigned int] and [uint16_t] values below. *)
Variables DEVICE_LAUNCHKEY_MINI_MK3 DEVICE_LAUNCHPAD_MINI_MK3 : Z.
Variables STOPPED STARTING RESTARTING PLAYING STOPPING DISABLED : Z.

(** [jack_midi_event_reserve(buffer, time, size) != NULL]: whether JACK
    grants the region.  JACK decides this from the buffer alone. *)
Variable jack_midi_event_reserve : jack_midi_buffer -> Z -> Z -> bool.

(** The six play states are labels of one [switch]. *)
Definition status_codes_distinct : Prop :=
  NoDup [STOPPED; STARTING; RESTARTING; PLAYING; STOPPING; DISABLED].

(** The session pad note chosen at the top of [sendPadStatusToDevice];
    [None] is the [else return]. *)
Definition session_pad (s : state) (sequence : Z) : option Z :=
  if (g_nProtocol s =? u32 DEVICE_LAUNCHKEY_MINI_MK3) && (sequence <? 16)
  then Some (at_index g_nLKM3SessionPads sequence)
  else if (g_nProtocol s =? u32 DEVICE_LAUNCHPAD_MINI_MK3) && (sequence <? 64)
  then Some (at_index g_nLPM3SessionPads sequence)
  else None.

(** [sendPadStatusToDevice(sequence, state)]: [sequence] is a [uint8_t],
    [status] a [uint16_t].  [pad] holds an entry of a [uint8_t] table, so
    passing it on as [uint8_t] changes nothing. *)
Definition sendPadStatusToDevice (sequence status : Z) (s : state) : state :=
  match session_pad s sequence with
  | None => s
  | Some pad =>
    let colour := at_index (g_nPadColour s) sequence in
    if status =? STOPPED then
      sendDeviceMidi3 0x90 pad colour s
    else if (status =? STARTING) || (status =? RESTARTING) then
      sendDeviceMidi3 0x91 pad g_nStartingColour (sendDeviceMidi3 0x90 pad colour s)
    else if status =? PLAYING then
      sendDeviceMidi3 0x92 pad colour s
    else if status =? STOPPING then
      sendDeviceMidi3 0x91 pad g_nStoppingColour (sendDeviceMidi3 0x90 pad colour s)
    else if status =? DISABLED then
      sendDeviceMidi3 0x90 pad 0 s
    else s
  end.

Definition selectMode (mode : Z) (s : state) : state :=
  if g_nProtocol s =? u32 DEVICE_LAUNCHKEY_MINI_MK3 then
    sendDeviceMidi3 0xbf 3 (u8 mode) s
  else if g_nProtocol s =? u32 DEVICE_LAUNCHPAD_MINI_MK3 then
    sendDeviceMidi [0xf0;0x00;0x20;0x29;0x02;0x0d;0x0e;0x01;0xf7] s
  else s.

(** [onOscStatus(pArgs, nArgs)]: the arguments are 32-bit OSC integers,
    each narrowed to [uint8_t].  The colour table has 64 entries, so the
    write at [nSequence <= 63] is within bounds. *)
Definition onOscStatus (pArgs : list Z) (s : state) : state :=
  if Z.of_nat (length pArgs) <? 4 then s else
  let nSequence := u8 (at_index pArgs 1) in
  let nState := u8 (at_index pArgs 2) in
  let nGroup := u8 (at_index pArgs 3) in
  if nSequence >? 63 then s else
  let s1 := set_g_nPadColour
              (<[Z.to_nat nSequence := at_index g_nPadColours (nGroup mod 16)]> (g_nPadColour s)) s in
  sendPadStatusToDevice nSequence nState s1.

(** [enableDevice(enable)]. *)
Definition enableDevice (enable : bool) (s : state) : state :=
  let '(connected, s1) := isDeviceConnected s in
  if negb connected then s1 else
  let s2 :=
    if enable then
      osc_send "/cuia/register" "sis" [OscStr "localhost"; OscInt 2001; OscStr "SMF"]
        (osc_send "/cuia/register" "sis"
           [OscStr "localhost"; OscInt 2001; OscStr "/SEQUENCER/STATE"]
           (server_run true
              (add_method "smf" "i" (add_method "/sequence/status" "iiii" s1))))
    else
      osc_send "/cuia/unregister" "sis" [OscStr "localhost"; OscInt 2001; OscStr "SMF"]
        (osc_send "/cuia/unregister" "sis"
           [OscStr "localhost"; OscInt 2001; OscStr "/SEQUENCER/STATE"]
           (server_run false
              (del_method "smf" "i" (del_method "/sequence/status" "iiii" s1)))) in
  if g_nProtocol s2 =? u32 DEVICE_LAUNCHKEY_MINI_MK3 then
    let s3 := sendDeviceMidi3 0x9f 12 (if enable then 127 else 0) s2 in
    if negb enable then s3 else
    let s4 := foldl (fun st pad => sendDeviceMidi3 0x99 (at_index g_nDrumPads pad) g_nDrumColour st)
                    s3 (seqZ 0 16) in
    let s5 := foldl (fun st pad => sendPadStatusToDevice pad (u16 STOPPED) st)
                    s4 (seqZ 0 16) in
    selectKnobs 1 s5
  else if g_nProtocol s2 =? u32 DEVICE_LAUNCHPAD_MINI_MK3 then
    sendDeviceMidi [0xf0;0x00;0x20;0x29;0x02;0x0d;0x00;0x7f;0xf7] s2
  else s2.

(** [initLaunchkey(protocol)], [protocol] a [size_t]. *)
Definition initLaunchkey (protocol : Z) (s : state) : state :=
  if protocol >=? g_nSupportedQuant then s else
  let s1 := set_g_nProtocol UNSET s in
  let '(connected, s2) := isDeviceConnected s1 in
  if negb connected then s2 else
  enableDevice true (set_g_nProtocol (u32 protocol) s2).

(** [sendMidi(pOutputBuffer, command, value1, value2)]: the three [int]s are
    stored into bytes. *)
Definition sendMidi (pOutputBuffer : jack_midi_buffer) (command value1 value2 : Z)
  : jack_midi_buffer :=
  if jack_midi_event_reserve pOutputBuffer 0 3
  then buf_write pOutputBuffer [u8 command; u8 value1; u8 value2]
  else pOutputBuffer.

(** [protocolHandler(pEvent, pOutputBuffer)]: the globals and the host
    output buffer afterwards.  [None] is a NULL [pEvent].  The protocol
    [switch] has the single label [0]; the bytes of the event are
    [unsigned char] promoted to [int]. *)
Definition protocolHandler (pEvent : option jack_midi_event_t)
    (pOutputBuffer : jack_midi_buffer) (s : state) : state * jack_midi_buffer :=
  match pEvent with
  | None => (s, pOutputBuffer)
  | Some ev =>
    if negb (size ev =? 3) then (s, pOutputBuffer) else
    let b0 := at_index (buffer ev) 0 in
    let b1 := at_index (buffer ev) 1 in
    let b2 := at_index (buffer ev) 2 in
    if g_nProtocol s =? 0 then
      let command := Z.land b0 0xF0 in
      if command =? 0x90 then
        if (b1 >? 35) && (b1 <? 52) then
          (sendDeviceMidi3 0x99 b1 g_nDrumOnColour s, sendMidi pOutputBuffer 0x99 b1 b2)
        else if (b1 >? 95) && (b1 <? 104) then
          (osc_send "/cuia/TOGGLE_SEQUENCE" "i" [OscInt (b1 - 96)] s, pOutputBuffer)
        else if (b1 >? 111) && (b1 <? 120) then
          (osc_send "/cuia/TOGGLE_SEQUENCE" "i" [OscInt (b1 - 104)] s, pOutputBuffer)
        else (s, pOutputBuffer)
      else if command =? 0x80 then
        if (b1 >? 35) && (b1 <? 52) then
          (sendDeviceMidi3 0x99 b1 g_nDrumColour s, sendMidi pOutputBuffer 0x89 b1 b2)
        else (s, pOutputBuffer)
      else if command =? 0xb0 then
        let s1 :=
          if b1 =? 9 then set_g_nCCoffset (8 * (b2 - 1)) s
          else if b1 =? 108 then set_g_bShift (truthy b2) s
          else s in
        if g_bShift s1 then
          if b1 =? 104 then
            (if truthy b2 then osc_send "/cuia/BACK_UP" "" [] s1 else s1, pOutputBuffer)
          else if b1 =? 105 then
            (if truthy b2 then osc_send "/cuia/BACK_DOWN" "" [] s1 else s1, pOutputBuffer)
          else if b1 =? 103 then
            (if truthy b2 then osc_send "/cuia/SELECT_UP" "" [] s1 else s1, pOutputBuffer)
          else if b1 =? 102 then
            (if truthy b2 then osc_send "/cuia/SELECT_DOWN" "" [] s1 else s1, pOutputBuffer)
          else if (b1 >? 20) && (b1 <? 29) then
            (s1, sendMidi pOutputBuffer (Z.lor 0xb0 (g_nMidiChannel s1))
                          (b1 + g_nCCoffset s1 + 40) b2)
          else if b1 =? 115 then
            (if truthy b2 then osc_send "/cuia/TOGGLE_AUDIO_PLAY" "" [] s1 else s1,
             pOutputBuffer)
          else if b1 =? 117 then
            (if truthy b2 then osc_send "/cuia/TOGGLE_AUDIO_RECORD" "" [] s1 else s1,
             pOutputBuffer)
          else (s1, pOutputBuffer)
        else
          if b1 =? 104 then
            (if truthy b2 then osc_send "/cuia/SWITCH_SELECT_SHORT" "" [] s1 else s1,
             pOutputBuffer)
          else if b1 =? 105 then
            (if truthy b2 then osc_send "/cuia/SWITCH_BACK_SHORT" "" [] s1 else s1,
             pOutputBuffer)
          else if (b1 >? 20) && (b1 <? 29) then
            (s1, sendMidi pOutputBuffer (Z.lor 0xb0 (g_nMidiChannel s1))
                          (b1 + g_nCCoffset s1) b2)
          else if b1 =? 115 then
            (if truthy b2 then osc_send "/cuia/TOGGLE_MIDI_PLAY" "" [] s1 else s1,
             pOutputBuffer)
          else if b1 =? 117 then
            (if truthy b2 then osc_send "/cuia/TOGGLE_MIDI_RECORD" "" [] s1 else s1,
             pOutputBuffer)
          else (s1, pOutputBuffer)
      else (s, pOutputBuffer)
    else (s, pOutputBuffer)
  end.

(** The loop of [onJackProcess] over [g_vSendQueue]: the events left in the
    queue and the device output buffer afterwards.  An event leaves the
    queue only after its bytes are copied. *)
Fixpoint drain_send_queue (queue : list MIDI_MESSAGE)
    (pDeviceOutputBuffer : jack_midi_buffer) : list MIDI_MESSAGE * jack_midi_buffer :=
  match queue with
  | [] => ([], pDeviceOutputBuffer)
  | msg :: rest =>
    if jack_midi_event_reserve pDeviceOutputBuffer 0 (msg_size msg)
    then drain_send_queue rest (buf_write pDeviceOutputBuffer msg)
    else (queue, pDeviceOutputBuffer)
  end.

(** [onJackProcess]: [events] are the contents of the device input buffer
    and the two buffers are what [jack_port_get_buffer] hands out for the
    host and device output ports.  Returns the globals, the host output
    buffer and the device output buffer. *)
Definition onJackProcess (events : list jack_midi_event_t)
    (pOutputBuffer pDeviceOutputBuffer : jack_midi_buffer) (s : state)
  : state * jack_midi_buffer * jack_midi_buffer :=
  if negb (g_pJackClient s) then (s, pOutputBuffer, pDeviceOutputBuffer) else
  let out0 := jack_midi_clear_buffer pOutputBuffer in
  let dev0 := jack_midi_clear_buffer pDeviceOutputBuffer in
  let '(s1, out1) :=
    foldl (fun acc ev => protocolHandler (Some ev) (snd acc) (fst acc)) (s, out0) events in
  let '(queue, dev1) := drain_send_queue (g_vSendQueue s1) dev0 in
  (set_g_vSendQueue queue s1, out1, dev1).

(** One pass of the alias loops of [onJackConnect] for one port role;
    [record] stores the protocol in [g_nInputProtocol] or
    [g_nOutputProtocol]. *)
Definition match_aliases (record : Z -> state -> state) (aliases : list string)
    (connect : Z) (s : state) : state :=
  foldl (fun st alias =>
           foldl (fun st' j =>
                    if strstr alias (g_sSupported !!! Z.to_nat j)
                    then initLaunchkey j (record (u32 (if truthy connect then j else -1)) st')
                    else st')
                 st (seqZ 0 g_nSupportedQuant))
        s aliases.

(** [onJackConnect(port_a, port_b, connect, arg)], with the two ports
    already looked up. *)
Definition onJackConnect (pSrcPort pDstPort : jack_port_t) (connect : Z) (s : state)
  : state :=
  if negb (g_pJackClient s) then s
  else if port_ptr pDstPort =? g_pInputPortDevice s then
    match_aliases set_g_nInputProtocol (port_aliases pSrcPort) connect s
  else if port_ptr pSrcPort =? g_pOutputPortDevice s then
    match_aliases set_g_nOutputProtocol (port_aliases pDstPort) connect s
  else s.

(** ** Vocabulary for the statements *)

(** The three connection fields of the globals. *)
Definition link (s : state) : Z * Z * Z :=
  (g_nInputProtocol s, g_nOutputProtocol s, g_nProtocol s).

(** What [isDeviceConnected] establishes: the active protocol mirrors the
    two recorded ones. *)
Definition link_ok (s : state) : Prop :=
  g_nProtocol s = if g_nInputProtocol s =? g_nOutputProtocol s
                  then g_nInputProtocol s else UNSET.

(** The connection invariant of the data model. *)
Definition connection_invariant (s : state) : Prop :=
  g_nProtocol s <> UNSET <->
  (g_nInputProtocol s = g_nOutputProtocol s /\ g_nInputProtocol s <> UNSET).

(** A notification as JACK delivers it: source port, destination port and
    the connect flag. *)
Definition notify (st : state) (n : jack_port_t * jack_port_t * Z) : state :=
  onJackConnect n.1.1 n.1.2 n.2 st.

(** ** Listing the supported devices *)

(** [getSupported(reset)]: the function-local [static size_t nIndex] is
    passed in and handed back next to the returned name; [None] is the NULL
    return. *)
Definition getSupported (reset : bool) (nIndex : Z) (s : state) : option string * Z :=
  let nIndex1 :=
    if reset then
      if g_nProtocol s =? UNSET then 0 else g_nProtocol s
    else if negb (g_nProtocol s =? UNSET) then
      if nIndex <? g_nProtocol s then g_nProtocol s else g_nSupportedQuant
    else nIndex in
  if nIndex1 >=? g_nSupportedQuant then (None, nIndex1)
  else (Some (g_sSupported !!! Z.to_nat nIndex1), nIndex1 + 1).

(** The names a caller collects with [n] calls [getSupported(false)]. *)
Fixpoint getSupported_next (n : nat) (nIndex : Z) (s : state) : list (option string) :=
  match n with
  | O => []
  | S n' => (getSupported false nIndex s).1
            :: getSupported_next n' (getSupported false nIndex s).2 s
  end.

(** One call [getSupported(true)] followed by [n] calls
    [getSupported(false)]. *)
Definition getSupported_listing (n : nat) (nIndex : Z) (s : state) : list (option string) :=
  (getSupported true nIndex s).1 :: getSupported_next n (getSupported true nIndex s).2 s.

(** ** The library as its callers drive it *)

(** The entry points that JACK, the OSC server and the host application
    call.  The [unsigned int] arguments of the public functions are
    converted on entry. *)
Inductive api_call : Type :=
| JackConnect (pSrcPort pDstPort : jack_port_t) (connect : Z)
| JackProcess (events : list jack_midi_event_t)
              (pOutputBuffer pDeviceOutputBuffer : jack_midi_buffer)
| OscStatus (pArgs : list Z)
| SetMidiChannel (channel : Z)
| SelectKnobs (bank : Z)
| SelectPads (mode : Z).

Definition api_step (s : state) (call : api_call) : state :=
  match call with
  | JackConnect pSrcPort pDstPort connect => onJackConnect pSrcPort pDstPort connect s
  | JackProcess events pOutputBuffer pDeviceOutputBuffer =>
      (onJackProcess events pOutputBuffer pDeviceOutputBuffer s).1.1
  | OscStatus pArgs => onOscStatus pArgs s
  | SetMidiChannel channel => setMidiChannel (u32 channel) s
  | SelectKnobs bank => selectKnobs (u32 bank) s
  | SelectPads mode => selectPads (u32 mode) s
  end.

(** A message the device can parse: it starts with a status byte. *)
Definition starts_with_status (m : MIDI_MESSAGE) : Prop := 128 <= at_index m 0.

(** The values a recorded or active protocol takes. *)
Definition protocol_value (p : Z) : Prop := p = 0 \/ p = 1 \/ p = UNSET.

(** A stored pad colour: the initial 0 or an entry of the palette. *)
Definition pad_colour_value (c : Z) : Prop := c = 0 \/ In c g_nPadColours.

(** What holds of the globals between any two calls, apart from the
    connection fields. *)
Definition side_ok (s : state) : Prop :=
  protocol_value (g_nInputProtocol s)
  /\ protocol_value (g_nOutputProtocol s)
  /\ 0 <= g_nMidiChannel s < 16
  /\ length (g_nPadColour s) = 64%nat
  /\ Forall pad_colour_value (g_nPadColour s)
  /\ Forall starts_with_status (g_vSendQueue s).

Definition globals_ok (s : state) : Prop := link_ok s /\ side_ok s.

(** The decoded input of one process cycle: the loop of [onJackProcess]
    over the events of the input buffer. *)
Definition decode_events (events : list jack_midi_event_t) (out : jack_midi_buffer)
    (s : state) : state * jack_midi_buffer :=
  foldl (fun acc ev => protocolHandler (Some ev) acc.2 acc.1) (s, out) events.

(** * Properties *)

(** ** Basic facts about the globals *)

Lemma state_eta (s : state) :
  {| g_pJackClient := g_pJackClient s; g_pInputPortDevice := g_pInputPortDevice s;
     g_pOutputPortDevice := g_pOutputPortDevice s; g_pOutputPort := g_pOutputPort s;
     g_nInputProtocol := g_nInputProtocol s; g_nOutputProtocol := g_nOutputProtocol s;
     g_nProtocol := g_nProtocol s; g_bShift := g_bShift s;
     g_nPadColour := g_nPadColour s; g_nCCoffset := g_nCCoffset s;
     g_nMidiChannel := g_nMidiChannel s; g_nPlayState := g_nPlayState s;
     g_vSendQueue := g_vSendQueue s; g_oscServer := g_oscServer s;
     g_oscClient := g_oscClient s |} = s.
Proof. destruct s; reflexivity. Qed.

Lemma set_g_nProtocol_same (s : state) v :
  g_nProtocol s = v -> set_g_nProtocol v s = s.
Proof. intros <-. apply state_eta. Qed.

Lemma set_g_vSendQueue_same (s : state) q :
  g_vSendQueue s = q -> set_g_vSendQueue q s = s.
Proof. intros <-. apply state_eta. Qed.

Lemma UNSET_value : UNSET = 4294967295.
Proof. reflexivity. Qed.

Lemma link_ok_invariant s : link_ok s -> connection_invariant s.
Proof.
  unfold link_ok, connection_invariant. intros H.
  destruct (Z.eqb_spec (g_nInputProtocol s) (g_nOutputProtocol s)) as [E|E];
    rewrite H; intuition congruence.
Qed.

Lemma link_ok_of_link s s' : link s' = link s -> link_ok s -> link_ok s'.
Proof. unfold link, link_ok. intros [= -> -> ->]. auto. Qed.

Lemma link_sendDeviceMidi3 a b c s : link (sendDeviceMidi3 a b c s) = link s.
Proof. unfold sendDeviceMidi3. destruct (_ || _); reflexivity. Qed.

Lemma link_sendDeviceMidi d s : link (sendDeviceMidi d s) = link s.
Proof. unfold sendDeviceMidi. destruct (_ || _); reflexivity. Qed.

Lemma link_sendPadStatusToDevice q st s : link (sendPadStatusToDevice q st s) = link s.
Proof.
  unfold sendPadStatusToDevice. destruct (session_pad s q); [|reflexivity].
  repeat match goal with |- context [if ?c then _ else _] => destruct c end;
    rewrite ?link_sendDeviceMidi3; reflexivity.
Qed.

Lemma foldl_link {A} (step : state -> A -> state) (l : list A) :
  (forall st x, link (step st x) = link st) ->
  forall s, link (foldl step s l) = link s.
Proof.
  intros Hstep. induction l as [|x l IH]; intros s; simpl; [reflexivity|].
  rewrite IH. apply Hstep.
Qed.

Lemma isDeviceConnected_fixed s :
  link_ok s ->
  isDeviceConnected s = (negb (g_nProtocol s =? UNSET), s).
Proof.
  unfold link_ok, isDeviceConnected. intros H.
  destruct (g_nInputProtocol s =? g_nOutputProtocol s); [|reflexivity].
  rewrite set_g_nProtocol_same by assumption. reflexivity.
Qed.

Lemma isDeviceConnected_link_ok s :
  g_nInputProtocol s = g_nOutputProtocol s -> link_ok (snd (isDeviceConnected s)).
Proof.
  intros E. unfold isDeviceConnected, link_ok.
  rewrite E, Z.eqb_refl. simpl. rewrite E, ?Z.eqb_refl. reflexivity.
Qed.

Lemma link_selectKnobs bank s : link_ok s -> link (selectKnobs bank s) = link s.
Proof.
  intros H. unfold selectKnobs. destruct (g_nProtocol s =? 0); [|reflexivity].
  rewrite isDeviceConnected_fixed by assumption.
  destruct (_ && _); [|reflexivity].
  rewrite link_sendDeviceMidi3. reflexivity.
Qed.

(** Once the active protocol mirrors the recorded ones, [enableDevice]
    leaves the three connection fields alone. *)
Lemma link_enableDevice enable s : link_ok s -> link (enableDevice enable s) = link s.
Proof.
  intros H. unfold enableDevice. rewrite isDeviceConnected_fixed by assumption.
  destruct (negb (negb _)); [reflexivity|].
  set (s2 := if enable then _ else _).
  assert (L2 : link s2 = link s) by (subst s2; destruct enable; reflexivity).
  assert (G2 : g_nProtocol s2 = g_nProtocol s) by (injection L2; auto).
  destruct (g_nProtocol s2 =? u32 DEVICE_LAUNCHKEY_MINI_MK3).
  - destruct (negb enable).
    + rewrite link_sendDeviceMidi3. exact L2.
    + rewrite link_selectKnobs.
      * rewrite foldl_link by (intros; apply link_sendPadStatusToDevice).
        rewrite foldl_link by (intros; apply link_sendDeviceMidi3).
        rewrite link_sendDeviceMidi3. exact L2.
      * eapply link_ok_of_link; [|exact H].
        rewrite foldl_link by (intros; apply link_sendPadStatusToDevice).
        rewrite foldl_link by (intros; apply link_sendDeviceMidi3).
        rewrite link_sendDeviceMidi3. exact L2.
  - destruct (g_nProtocol s2 =? u32 DEVICE_LAUNCHPAD_MINI_MK3).
    + rewrite link_sendDeviceMidi. exact L2.
    + exact L2.
Qed.

Lemma enableDevice_recheck enable s :
  g_nInputProtocol s = g_nOutputProtocol s ->
  enableDevice enable s = enableDevice enable (set_g_nProtocol (g_nInputProtocol s) s).
Proof.
  intros E. unfold enableDevice, isDeviceConnected.
  cbn [g_nInputProtocol g_nOutputProtocol set_g_nProtocol].
  rewrite <- E, Z.eqb_refl. reflexivity.
Qed.

Lemma enableDevice_link_ok enable s :
  g_nInputProtocol s = g_nOutputProtocol s ->
  link_ok (enableDevice enable s)
  /\ g_nInputProtocol (enableDevice enable s) = g_nInputProtocol s
  /\ g_nOutputProtocol (enableDevice enable s) = g_nOutputProtocol s.
Proof.
  intros E. rewrite enableDevice_recheck by assumption.
  set (s4 := set_g_nProtocol (g_nInputProtocol s) s).
  assert (Hok : link_ok s4).
  { unfold link_ok, s4. cbn. rewrite <- E, Z.eqb_refl. reflexivity. }
  pose proof (link_enableDevice enable s4 Hok) as L.
  split; [eapply link_ok_of_link; eauto|].
  injection L as -> -> _. split; reflexivity.
Qed.

(** [initLaunchkey] re-establishes the mirror from any globals and keeps
    the recorded protocols. *)
Lemma initLaunchkey_link_ok protocol s :
  protocol < g_nSupportedQuant ->
  link_ok (initLaunchkey protocol s)
  /\ g_nInputProtocol (initLaunchkey protocol s) = g_nInputProtocol s
  /\ g_nOutputProtocol (initLaunchkey protocol s) = g_nOutputProtocol s.
Proof.
  intros Hp. unfold initLaunchkey.
  destruct (Z.geb_spec protocol g_nSupportedQuant) as [?|_]; [lia|].
  unfold isDeviceConnected. cbn [g_nInputProtocol g_nOutputProtocol set_g_nProtocol].
  destruct (Z.eqb_spec (g_nInputProtocol s) (g_nOutputProtocol s)) as [E|E];
    cbn [g_nProtocol set_g_nProtocol].
  - destruct (Z.eqb_spec (g_nInputProtocol s) UNSET) as [U|U]; cbn [negb].
    + unfold link_ok. cbn. rewrite <- E, Z.eqb_refl. auto.
    + apply (enableDevice_link_ok true
               (set_g_nProtocol (u32 protocol)
                  (set_g_nProtocol (g_nInputProtocol s) (set_g_nProtocol UNSET s)))).
      exact E.
  - rewrite Z.eqb_refl. cbn [negb]. unfold link_ok. cbn.
    destruct (Z.eqb_spec (g_nInputProtocol s) (g_nOutputProtocol s)); [contradiction|auto].
Qed.

Lemma foldl_preserves {A} (P : state -> Prop) (step : state -> A -> state) (l : list A) :
  (forall st x, In x l -> P st -> P (step st x)) ->
  forall s, P s -> P (foldl step s l).
Proof.
  induction l as [|x l IH]; intros Hstep s Hs; simpl; [exact Hs|].
  apply IH.
  - intros st y Hy. apply Hstep. right. exact Hy.
  - apply Hstep; [left; reflexivity|exact Hs].
Qed.

Lemma supported_indices : seqZ 0 g_nSupportedQuant = [0; 1].
Proof. reflexivity. Qed.

(** The alias loops keep the mirror, whichever field they record into. *)
Lemma match_aliases_link_ok record aliases connect s :
  link_ok s -> link_ok (match_aliases record aliases connect s).
Proof.
  unfold match_aliases. apply foldl_preserves. intros st alias _.
  apply foldl_preserves. intros st' j Hj Hst'.
  destruct (strstr alias _); [|exact Hst'].
  apply initLaunchkey_link_ok.
  rewrite supported_indices in Hj. unfold g_nSupportedQuant. simpl in *. lia.
Qed.

Lemma onJackConnect_link_ok pSrcPort pDstPort connect s :
  link_ok s -> link_ok (onJackConnect pSrcPort pDstPort connect s).
Proof.
  intros H. unfold onJackConnect.
  destruct (negb (g_pJackClient s)); [exact H|].
  destruct (port_ptr pDstPort =? g_pInputPortDevice s);
    [apply match_aliases_link_ok; exact H|].
  destruct (port_ptr pSrcPort =? g_pOutputPortDevice s);
    [apply match_aliases_link_ok; exact H|exact H].
Qed.

(** ** Connection detection *)

(** C1.  Whatever connection and disconnection notifications JACK delivers
    after start-up, in whatever order, after each of them is processed (that
    is, after the first [k] of them, for every [k]) the active protocol
    [g_nProtocol] is set exactly when the input and output protocols
    recorded so far are equal and set; otherwise it is unset. *)
Theorem connection_invariant_after_notifications
    (client : bool) (pIn pOutDev pOut : Z)
    (notifications : list (jack_port_t * jack_port_t * Z)) (k : nat) :
  connection_invariant
    (foldl notify (initial_state client pIn pOutDev pOut) (take k notifications)).
Proof.
  apply link_ok_invariant.
  apply (foldl_preserves link_ok).
  - intros st n _ Hst. apply onJackConnect_link_ok. exact Hst.
  - reflexivity.
Qed.

(** ** Draining the send queue *)

(** C2.  One run of the drain loop of [onJackProcess] splits the queue into
    the events it sent and the events it left: the sent ones are a prefix of
    the queue, they appear in the device output buffer after what was there,
    in queue order and once each; every one of them was granted its
    reservation in the buffer as it stood when its turn came; and the loop
    stopped either at the end of the queue or at the first event whose
    reservation was refused, which stays at the head of what is left. *)
Theorem drain_send_queue_fifo (queue : list MIDI_MESSAGE) (dev : jack_midi_buffer) :
  exists sent : list MIDI_MESSAGE,
    queue = sent ++ (drain_send_queue queue dev).1
    /\ (drain_send_queue queue dev).2
       = {| buf_room := buf_room dev; buf_events := buf_events dev ++ sent |}
    /\ (forall n msg, sent !! n = Some msg ->
          jack_midi_event_reserve
            {| buf_room := buf_room dev; buf_events := buf_events dev ++ take n sent |}
            0 (msg_size msg) = true)
    /\ match (drain_send_queue queue dev).1 with
       | [] => True
       | msg :: _ =>
           jack_midi_event_reserve (drain_send_queue queue dev).2 0 (msg_size msg) = false
       end.
Proof.
  revert dev. induction queue as [|msg rest IH]; intros dev.
  - exists []. simpl. rewrite app_nil_r. destruct dev; repeat split; try reflexivity.
    intros n m Hn. destruct n; discriminate.
  - simpl. destruct (jack_midi_event_reserve dev 0 (msg_size msg)) eqn:Hres.
    + destruct (IH (buf_write dev msg)) as (sent & Hq & Hbuf & Hgrant & Hstop).
      exists (msg :: sent). split; [|split; [|split]].
      * simpl. f_equal. exact Hq.
      * rewrite Hbuf. simpl. rewrite <- app_assoc. reflexivity.
      * intros [|n] m Hn; simpl in Hn.
        -- injection Hn as <-. simpl. rewrite app_nil_r. destruct dev; exact Hres.
        -- specialize (Hgrant n m Hn). simpl in Hgrant |- *.
           rewrite <- app_assoc in Hgrant. exact Hgrant.
      * exact Hstop.
    + exists []. simpl. rewrite app_nil_r. destruct dev; repeat split; try reflexivity.
      * intros n m Hn. destruct n; discriminate.
      * exact Hres.
Qed.

(** The queue after a whole process cycle is what the drain loop leaves of
    the queue that input decoding produced. *)
Lemma onJackProcess_queue events out dev s :
  g_pJackClient s = true ->
  let decoded :=
    foldl (fun acc ev => protocolHandler (Some ev) acc.2 acc.1)
          (s, jack_midi_clear_buffer out) events in
  g_vSendQueue (onJackProcess events out dev s).1.1
    = (drain_send_queue (g_vSendQueue decoded.1) (jack_midi_clear_buffer dev)).1
  /\ (onJackProcess events out dev s).2
    = (drain_send_queue (g_vSendQueue decoded.1) (jack_midi_clear_buffer dev)).2.
Proof.
  intros Hc. unfold onJackProcess. rewrite Hc. cbn [negb].
  destruct (foldl _ _ events) as [s1 out1]. cbn [fst snd].
  destruct (drain_send_queue _ _) as [q dev1]. split; reflexivity.
Qed.

(** ** Decoding device input *)

(** C10.  An incoming event whose size is not 3 (any system-exclusive
    message among them) makes [protocolHandler] return at once: the globals
    (shift flag, CC offset, pad colours, send queue, OSC traffic) and the
    host output buffer are exactly what they were. *)
Theorem protocolHandler_ignores_other_sizes
    (ev : jack_midi_event_t) (out : jack_midi_buffer) (s : state) :
  size ev <> 3 ->
  protocolHandler (Some ev) out s = (s, out).
Proof.
  intros H. unfold protocolHandler.
  destruct (Z.eqb_spec (size ev) 3) as [E|_]; [contradiction|reflexivity].
Qed.

(** ** Building messages *)

Lemma queue_grows_ne (q : list MIDI_MESSAGE) m : q ++ [m] <> q.
Proof.
  intros H. apply (f_equal length) in H. rewrite length_app in H. simpl in H. lia.
Qed.

Lemma sendDeviceMidi3_accept status value1 value2 s :
  128 <= status -> value1 <= 127 \/ value2 <= 127 ->
  sendDeviceMidi3 status value1 value2 s
  = set_g_vSendQueue (g_vSendQueue s ++ [[status; value1; value2]]) s.
Proof.
  intros Hs Hv. unfold sendDeviceMidi3.
  destruct (Z.ltb_spec status 128); [lia|].
  destruct (Z.gtb_spec value1 127), (Z.gtb_spec value2 127); try reflexivity. lia.
Qed.

Lemma sendDeviceMidi3_drop status value1 value2 s :
  status < 128 \/ (value1 > 127 /\ value2 > 127) ->
  sendDeviceMidi3 status value1 value2 s = s.
Proof.
  intros H. unfold sendDeviceMidi3.
  destruct (Z.ltb_spec status 128); [reflexivity|].
  destruct (Z.gtb_spec value1 127), (Z.gtb_spec value2 127); try reflexivity; lia.
Qed.

Lemma sendDeviceMidi_accept data s :
  data <> [] -> 128 <= at_index data 0 ->
  sendDeviceMidi data s = set_g_vSendQueue (g_vSendQueue s ++ [data]) s.
Proof.
  intros Hd Hb. unfold sendDeviceMidi, msg_size.
  destruct data as [|b data]; [contradiction|].
  destruct (Z.ltb_spec (Z.of_nat (length (b :: data))) 1); [simpl in *; lia|].
  destruct (Z.ltb_spec (at_index (b :: data) 0) 128); [lia|reflexivity].
Qed.

Lemma sendDeviceMidi_drop data s :
  data = [] \/ at_index data 0 < 128 -> sendDeviceMidi data s = s.
Proof.
  intros H. unfold sendDeviceMidi, msg_size.
  destruct (Z.ltb_spec (Z.of_nat (length data)) 1); [reflexivity|].
  destruct (Z.ltb_spec (at_index data 0) 128); [reflexivity|].
  destruct H as [->|H]; [simpl in *; lia|lia].
Qed.

(** C7, amended.  [sendDeviceMidi] drops a byte sequence exactly
    when it is empty or its first byte is below 128, and otherwise appends
    it unchanged to the send queue.  The three-byte [sendDeviceMidi3] drops
    its message exactly when the status byte is below 128 or both data
    bytes are above 127, and otherwise appends the three bytes unchanged.
    A dropped message leaves the globals as they were. *)
Theorem message_construction_checks (s : state) :
  (forall data,
      sendDeviceMidi data s = s <-> (data = [] \/ at_index data 0 < 128))
  /\ (forall data,
      ~ (data = [] \/ at_index data 0 < 128) ->
      sendDeviceMidi data s = set_g_vSendQueue (g_vSendQueue s ++ [data]) s)
  /\ (forall status value1 value2,
      sendDeviceMidi3 status value1 value2 s = s
      <-> (status < 128 \/ (value1 > 127 /\ value2 > 127)))
  /\ (forall status value1 value2,
      ~ (status < 128 \/ (value1 > 127 /\ value2 > 127)) ->
      sendDeviceMidi3 status value1 value2 s
      = set_g_vSendQueue (g_vSendQueue s ++ [[status; value1; value2]]) s).
Proof.
  assert (Hne : forall q, set_g_vSendQueue (g_vSendQueue s ++ [q]) s <> s).
  { intros q H. apply (f_equal g_vSendQueue) in H. exact (queue_grows_ne _ _ H). }
  split; [|split; [|split]].
  - intros data. split; [|apply sendDeviceMidi_drop].
    intros H. destruct data as [|b data]; [left; reflexivity|].
    destruct (Z.lt_ge_cases (at_index (b :: data) 0) 128); [right; assumption|].
    rewrite sendDeviceMidi_accept in H by (assumption || discriminate).
    destruct (Hne _ H).
  - intros data H. apply sendDeviceMidi_accept.
    + intros ->. apply H. left. reflexivity.
    + lia.
  - intros status value1 value2. split; [|apply sendDeviceMidi3_drop].
    intros H.
    destruct (Z.lt_ge_cases status 128); [left; assumption|].
    destruct (Z.le_gt_cases value1 127);
      [|destruct (Z.le_gt_cases value2 127); [|right; lia]];
      rewrite sendDeviceMidi3_accept in H by (try assumption; auto);
      destruct (Hne _ H).
  - intros status value1 value2 H. apply sendDeviceMidi3_accept; lia.
Qed.

(** ** Pad status encoding *)

Lemma at_index_Forall (P : Z -> Prop) a i : Forall P a -> P 0 -> P (at_index a i).
Proof.
  intros Ha H0. unfold at_index.
  destruct (a !! Z.to_nat i) as [x|] eqn:E; simpl; [|exact H0].
  eapply Forall_lookup_1; eauto.
Qed.

Lemma table_below_128 a i :
  forallb (fun x => (0 <=? x) && (x <=? 127)) a = true -> 0 <= at_index a i <= 127.
Proof.
  intros H. apply (at_index_Forall (fun x => 0 <= x <= 127)); [|lia].
  apply Forall_forall. intros x Hx. rewrite forallb_forall in H.
  specialize (H x). rewrite <- list_elem_of_In in H. specialize (H Hx). lia.
Qed.

Lemma session_pad_range s sequence pad :
  session_pad s sequence = Some pad -> 0 <= pad <= 127.
Proof.
  unfold session_pad. intros H.
  destruct (_ && _); [injection H as <-; apply table_below_128; reflexivity|].
  destruct (_ && _); [injection H as <-; apply table_below_128; reflexivity|].
  discriminate.
Qed.

Lemma set_queue_twice q1 q2 s :
  set_g_vSendQueue q2 (set_g_vSendQueue q1 s) = set_g_vSendQueue q2 s.
Proof. reflexivity. Qed.

(** Two messages queued in a row. *)
Lemma sendDeviceMidi3_pair a1 b1 c1 a2 b2 c2 s :
  128 <= a1 -> b1 <= 127 -> 128 <= a2 -> b2 <= 127 ->
  sendDeviceMidi3 a2 b2 c2 (sendDeviceMidi3 a1 b1 c1 s)
  = set_g_vSendQueue (g_vSendQueue s ++ [[a1; b1; c1]; [a2; b2; c2]]) s.
Proof.
  intros. rewrite !sendDeviceMidi3_accept by auto.
  rewrite set_queue_twice. cbn [g_vSendQueue set_g_vSendQueue].
  rewrite <- app_assoc. reflexivity.
Qed.

Ltac decide_status :=
  repeat match goal with
         | |- context [?a =? ?b] => destruct (Z.eqb_spec a b); try congruence
         end;
  cbn [orb].

Lemma status_codes_apart :
  status_codes_distinct ->
  STOPPED <> STARTING /\ STOPPED <> RESTARTING /\ STOPPED <> PLAYING
  /\ STOPPED <> STOPPING /\ STOPPED <> DISABLED
  /\ STARTING <> RESTARTING /\ STARTING <> PLAYING /\ STARTING <> STOPPING
  /\ STARTING <> DISABLED
  /\ RESTARTING <> PLAYING /\ RESTARTING <> STOPPING /\ RESTARTING <> DISABLED
  /\ PLAYING <> STOPPING /\ PLAYING <> DISABLED
  /\ STOPPING <> DISABLED.
Proof.
  unfold status_codes_distinct. rewrite !NoDup_cons, !not_elem_of_cons.
  intuition congruence.
Qed.

(** The encoding of a stopped pad needs no assumption on the other codes:
    [STOPPED] is the first label tested. *)
Lemma sendPadStatusToDevice_stopped s sequence pad :
  session_pad s sequence = Some pad ->
  sendPadStatusToDevice sequence STOPPED s
  = set_g_vSendQueue
      (g_vSendQueue s ++ [[0x90; pad; at_index (g_nPadColour s) sequence]]) s.
Proof.
  intros Hpad. pose proof (session_pad_range _ _ _ Hpad).
  unfold sendPadStatusToDevice. rewrite Hpad, Z.eqb_refl.
  apply sendDeviceMidi3_accept; lia.
Qed.

(** C4.  For a pad index that is valid for the active device, the six play
    states are encoded as follows: stopped, one message [0x90 pad colour]
    with the colour stored for the pad; starting and restarting, that
    message followed by [0x91 pad 123], the flashing overlay in the starting
    colour; playing, the single message [0x92 pad colour]; stopping,
    [0x90 pad colour] followed by the overlay [0x91 pad 120] in the stopping
    colour; disabled, the single message [0x90 pad 0].  Nothing else in the
    globals changes. *)
Theorem pad_status_encoding (s : state) (sequence : Z) :
  status_codes_distinct ->
  0 <= sequence ->
  (g_nProtocol s = u32 DEVICE_LAUNCHKEY_MINI_MK3 /\ sequence < 16)
  \/ (g_nProtocol s = u32 DEVICE_LAUNCHPAD_MINI_MK3 /\ sequence < 64) ->
  exists pad,
    session_pad s sequence = Some pad
    /\ let colour := at_index (g_nPadColour s) sequence in
       let emits status msgs :=
         sendPadStatusToDevice sequence status s
         = set_g_vSendQueue (g_vSendQueue s ++ msgs) s in
       emits STOPPED [[0x90; pad; colour]]
       /\ emits STARTING [[0x90; pad; colour]; [0x91; pad; g_nStartingColour]]
       /\ emits RESTARTING [[0x90; pad; colour]; [0x91; pad; g_nStartingColour]]
       /\ emits PLAYING [[0x92; pad; colour]]
       /\ emits STOPPING [[0x90; pad; colour]; [0x91; pad; g_nStoppingColour]]
       /\ emits DISABLED [[0x90; pad; 0]].
Proof.
  intros Hcodes Hseq Hvalid.
  assert (Hsome : exists pad, session_pad s sequence = Some pad).
  { unfold session_pad. destruct Hvalid as [[-> Hlt]|[Hp Hlt]].
    - rewrite Z.eqb_refl. destruct (Z.ltb_spec sequence 16); [|lia]. eauto.
    - destruct (_ && _); [eauto|]. rewrite Hp, Z.eqb_refl.
      destruct (Z.ltb_spec sequence 64); [|lia]. eauto. }
  destruct Hsome as [pad Hpad]. exists pad. split; [exact Hpad|].
  pose proof (session_pad_range _ _ _ Hpad) as Hr.
  destruct (status_codes_apart Hcodes)
    as (?&?&?&?&?&?&?&?&?&?&?&?&?&?&?).
  cbv zeta.
  repeat split; unfold sendPadStatusToDevice; rewrite Hpad; decide_status;
    first [ apply sendDeviceMidi3_accept; lia
          | apply sendDeviceMidi3_pair; lia ].
Qed.

(** C8, amended.  A pad request whose sequence index is beyond
    the session pads of the active device queues nothing.  For
    [sendPadStatusToDevice] (index 16 and up on the Launchkey Mini, 64 and
    up on the Launchpad Mini) the globals stay as they were, and so they do
    for a status notification whose 8-bit sequence index is above 63.  A
    status notification with index 16 to 63 that arrives while the 16-pad
    Launchkey Mini is active queues nothing either, yet it stores the colour
    of the pad's group in the colour table. *)
Theorem out_of_range_pad_requests (s : state) :
  (forall sequence status,
      (g_nProtocol s = u32 DEVICE_LAUNCHKEY_MINI_MK3 -> 16 <= sequence) ->
      (g_nProtocol s = u32 DEVICE_LAUNCHPAD_MINI_MK3 -> 64 <= sequence) ->
      sendPadStatusToDevice sequence status s = s)
  /\ (forall pArgs,
      63 < u8 (at_index pArgs 1) -> onOscStatus pArgs s = s)
  /\ (forall pArgs,
      (4 <= length pArgs)%nat ->
      g_nProtocol s = u32 DEVICE_LAUNCHKEY_MINI_MK3 ->
      u32 DEVICE_LAUNCHKEY_MINI_MK3 <> u32 DEVICE_LAUNCHPAD_MINI_MK3 ->
      16 <= u8 (at_index pArgs 1) <= 63 ->
      onOscStatus pArgs s
      = set_g_nPadColour
          (<[Z.to_nat (u8 (at_index pArgs 1))
             := at_index g_nPadColours (u8 (at_index pArgs 3) mod 16)]>
             (g_nPadColour s)) s).
Proof.
  split; [|split].
  - intros sequence status Hlk Hlp.
    unfold sendPadStatusToDevice, session_pad.
    destruct (Z.eqb_spec (g_nProtocol s) (u32 DEVICE_LAUNCHKEY_MINI_MK3)) as [E|E];
      destruct (Z.ltb_spec sequence 16); cbn [andb];
      try (specialize (Hlk E); lia);
      destruct (Z.eqb_spec (g_nProtocol s) (u32 DEVICE_LAUNCHPAD_MINI_MK3)) as [F|F];
      destruct (Z.ltb_spec sequence 64); cbn [andb];
      try (specialize (Hlp F); lia); reflexivity.
  - intros pArgs H. unfold onOscStatus.
    destruct (_ <? 4); [reflexivity|].
    destruct (Z.gtb_spec (u8 (at_index pArgs 1)) 63); [reflexivity|lia].
  - intros pArgs Hlen Hp Hne Hr. unfold onOscStatus.
    destruct (Z.ltb_spec (Z.of_nat (length pArgs)) 4); [lia|].
    destruct (Z.gtb_spec (u8 (at_index pArgs 1)) 63); [lia|].
    unfold sendPadStatusToDevice, session_pad.
    cbn [g_nProtocol set_g_nPadColour].
    destruct (Z.ltb_spec (u8 (at_index pArgs 1)) 16); [lia|].
    rewrite andb_false_r.
    destruct (Z.eqb_spec (g_nProtocol s) (u32 DEVICE_LAUNCHPAD_MINI_MK3)); [congruence|].
    reflexivity.
Qed.

(** ** Knob banks *)

(** Reading the three bytes of an event. *)
Ltac decode_bytes :=
  repeat match goal with
         | |- context [size {| time := ?t; buffer := [?a; ?b; ?c] |}] =>
             change (size {| time := t; buffer := [a; b; c] |}) with 3
         | |- context [buffer {| time := ?t; buffer := ?l |}] =>
             change (buffer {| time := t; buffer := l |}) with l
         | |- context [at_index [?a; ?b; ?c] 0] => change (at_index [a; b; c] 0) with a
         | |- context [at_index [?a; ?b; ?c] 1] => change (at_index [a; b; c] 1) with b
         | |- context [at_index [?a; ?b; ?c] 2] => change (at_index [a; b; c] 2) with c
         end;
  change (negb (3 =? 3)) with false; cbv iota.

(** C5, amended.  With the Launchkey Mini active and connected, the public
    [selectKnobs] rejects a bank of 7 or more, leaving the globals as they
    were, and for a bank below 7 queues the one confirmation [0xbf 9 bank]
    and touches nothing else but [g_nCCoffset].  The bank message decoded
    from the device (controller 9) is taken as it comes: it sets
    [g_nCCoffset] to [8 * (value - 1)], the offset of the bank's eight
    controllers, for every value, checks no range, and queues and forwards
    nothing. *)
Theorem bank_selection (s : state) :
  g_nProtocol s = 0 -> g_nInputProtocol s = 0 -> g_nOutputProtocol s = 0 ->
  (forall bank, 7 <= bank -> selectKnobs bank s = s)
  /\ (forall bank, 0 <= bank < 7 ->
        exists offset,
          selectKnobs bank s
          = set_g_vSendQueue (g_vSendQueue s ++ [[0xbf; 9; bank]])
              (set_g_nCCoffset offset s))
  /\ (forall t b0 value out,
        Z.land b0 0xF0 = 0xb0 ->
        protocolHandler (Some {| time := t; buffer := [b0; 9; value] |}) out s
        = (set_g_nCCoffset (8 * (value - 1)) s, out)).
Proof.
  intros Hp Hi Ho.
  assert (Hok : link_ok s) by (unfold link_ok; rewrite Hp, Hi, Ho; reflexivity).
  split; [|split].
  - intros bank Hb. unfold selectKnobs. rewrite Hp. cbn [Z.eqb].
    rewrite isDeviceConnected_fixed by assumption.
    destruct (Z.ltb_spec bank 7); [lia|]. rewrite andb_false_r. reflexivity.
  - intros bank Hb. unfold selectKnobs. rewrite Hp. cbn [Z.eqb].
    rewrite isDeviceConnected_fixed by assumption. rewrite Hp.
    destruct (Z.ltb_spec bank 7); [|lia]. cbn [negb andb Z.eqb UNSET].
    replace (negb (0 =? UNSET)) with true by reflexivity. cbn [andb].
    unfold u8. rewrite Z.mod_small by lia.
    rewrite sendDeviceMidi3_accept by lia. exists bank. reflexivity.
  - intros t b0 value out Hc. unfold protocolHandler. decode_bytes.
    rewrite Hp, Hc. simpl.
    destruct (g_bShift s); reflexivity.
Qed.

(** ** Shift-gated decoding *)

Lemma osc_log_grows_ne (l : list osc_message) m : l <> l ++ [m].
Proof.
  intros H. apply (f_equal length) in H. rewrite length_app in H. simpl in H. lia.
Qed.

Lemma osc_log_last_ne (l : list osc_message) m1 m2 :
  osc_path m1 <> osc_path m2 -> l ++ [m1] <> l ++ [m2].
Proof. intros Hne H. apply app_inv_head in H. injection H as ->. contradiction. Qed.

Lemma truthy_nonzero x : x <> 0 -> truthy x = true.
Proof. unfold truthy. intros H. destruct (Z.eqb_spec x 0); [contradiction|reflexivity]. Qed.

(** C6, amended.  With the Launchkey Mini active, a press
    (non-zero value) of the controls 102, 103, 104, 105, 115 and 117
    publishes different OSC traffic with shift held than without.  A
    controller event in the knob range 21 to 28 is forwarded to the host
    buffer, when JACK grants the three bytes, as the message whose status
    byte is [0xb0 | g_nMidiChannel] and whose controller byte is the
    incoming number plus [g_nCCoffset], plus 40 when shift is held, stored
    into a byte, that is, reduced modulo 256; the controller byte equals the
    sum itself whenever the sum is a byte value. *)
Theorem shift_gated_decode (s : state) (out : jack_midi_buffer) (t b0 b1 b2 : Z) :
  g_nProtocol s = 0 ->
  Z.land b0 0xF0 = 0xb0 ->
  let ev := Some {| time := t; buffer := [b0; b1; b2] |} in
  let unshifted := protocolHandler ev out (set_g_bShift false s) in
  let shifted := protocolHandler ev out (set_g_bShift true s) in
  (In b1 [102; 103; 104; 105; 115; 117] -> b2 <> 0 ->
     g_oscClient unshifted.1 <> g_oscClient shifted.1)
  /\ (20 < b1 < 29 -> jack_midi_event_reserve out 0 3 = true ->
      unshifted
      = (set_g_bShift false s,
         buf_write out [u8 (Z.lor 0xb0 (g_nMidiChannel s)); u8 (b1 + g_nCCoffset s); u8 b2])
      /\ shifted
         = (set_g_bShift true s,
            buf_write out
              [u8 (Z.lor 0xb0 (g_nMidiChannel s)); u8 (b1 + g_nCCoffset s + 40); u8 b2])
      /\ (0 <= b1 + g_nCCoffset s < 256 -> u8 (b1 + g_nCCoffset s) = b1 + g_nCCoffset s)
      /\ (0 <= b1 + g_nCCoffset s + 40 < 256 ->
          u8 (b1 + g_nCCoffset s + 40) = b1 + g_nCCoffset s + 40)).
Proof.
  intros Hp Hc ev unshifted shifted. subst ev unshifted shifted.
  unfold protocolHandler. decode_bytes.
  cbn [g_nProtocol set_g_bShift]. rewrite Hp, Hc.
  change (0 =? 0) with true. change (176 =? 144) with false.
  change (176 =? 128) with false. change (176 =? 176) with true. cbv iota.
  split.
  - intros Hin Hb2. rewrite (truthy_nonzero b2 Hb2).
    simpl in Hin. destruct Hin as [<-|[<-|[<-|[<-|[<-|[<-|[]]]]]]]; simpl;
      first [ apply osc_log_grows_ne | apply osc_log_last_ne; discriminate ].
  - intros Hk Hres.
    assert (E9 : (b1 =? 9) = false) by (apply Z.eqb_neq; lia).
    assert (E108 : (b1 =? 108) = false) by (apply Z.eqb_neq; lia).
    assert (E102 : (b1 =? 102) = false) by (apply Z.eqb_neq; lia).
    assert (E103 : (b1 =? 103) = false) by (apply Z.eqb_neq; lia).
    assert (E104 : (b1 =? 104) = false) by (apply Z.eqb_neq; lia).
    assert (E105 : (b1 =? 105) = false) by (apply Z.eqb_neq; lia).
    assert (G : (b1 >? 20) = true) by (apply Z.gtb_lt; lia).
    assert (L : (b1 <? 29) = true) by (apply Z.ltb_lt; lia).
    rewrite E9, E108, E102, E103, E104, E105, G, L.
    cbn [g_bShift set_g_bShift andb g_nMidiChannel g_nCCoffset].
    unfold sendMidi. rewrite Hres.
    repeat split; unfold u8; intros; apply Z.mod_small; assumption.
Qed.

(** ** The enable sequence *)

(** A loop whose every iteration queues one message. *)
Lemma foldl_enqueue (I : state -> Prop) (f : Z -> MIDI_MESSAGE)
    (step : state -> Z -> state) (l : list Z) :
  (forall st x, In x l -> I st ->
     step st x = set_g_vSendQueue (g_vSendQueue st ++ [f x]) st) ->
  (forall st q, I st -> I (set_g_vSendQueue q st)) ->
  forall st, I st ->
    foldl step st l = set_g_vSendQueue (g_vSendQueue st ++ map f l) st.
Proof.
  intros Hstep Hkeep. induction l as [|x l IH]; intros st Hst; simpl.
  - rewrite app_nil_r. symmetry. apply set_g_vSendQueue_same. reflexivity.
  - rewrite Hstep by (auto; left; reflexivity).
    rewrite IH.
    + rewrite set_queue_twice. cbn [g_vSendQueue set_g_vSendQueue].
      rewrite <- app_assoc. reflexivity.
    + intros st' y Hy. apply Hstep. right. exact Hy.
    + apply Hkeep. exact Hst.
Qed.

Lemma pad_indices : seqZ 0 16 = [0; 1; 2; 3; 4; 5; 6; 7; 8; 9; 10; 11; 12; 13; 14; 15].
Proof. reflexivity. Qed.

Lemma pad_index_range x : In x (seqZ 0 16) -> 0 <= x < 16.
Proof. rewrite <- list_elem_of_In, elem_of_seqZ. lia. Qed.

(** The messages of the two pad loops of [enableDevice]. *)
Lemma drum_pad_loop st :
  foldl (fun st pad => sendDeviceMidi3 0x99 (at_index g_nDrumPads pad) g_nDrumColour st)
        st (seqZ 0 16)
  = set_g_vSendQueue
      (g_vSendQueue st
       ++ map (fun pad => [0x99; at_index g_nDrumPads pad; g_nDrumColour]) (seqZ 0 16)) st.
Proof.
  apply (foldl_enqueue (fun _ => True)); auto.
  intros st' x _ _. apply sendDeviceMidi3_accept; [lia|].
  left. apply table_below_128. reflexivity.
Qed.

Lemma session_pad_loop st :
  0 <= STOPPED < 65536 ->
  g_nProtocol st = u32 DEVICE_LAUNCHKEY_MINI_MK3 ->
  foldl (fun st pad => sendPadStatusToDevice pad (u16 STOPPED) st) st (seqZ 0 16)
  = set_g_vSendQueue
      (g_vSendQueue st
       ++ map (fun pad => [0x90; at_index g_nLKM3SessionPads pad;
                           at_index (g_nPadColour st) pad]) (seqZ 0 16)) st.
Proof.
  intros Hs Hp.
  apply (foldl_enqueue
           (fun st' => g_nProtocol st' = u32 DEVICE_LAUNCHKEY_MINI_MK3
                       /\ g_nPadColour st' = g_nPadColour st)); auto.
  intros st' x Hx [Hp' Hc']. apply pad_index_range in Hx.
  unfold u16. rewrite Z.mod_small by lia.
  rewrite (sendPadStatusToDevice_stopped st' x (at_index g_nLKM3SessionPads x)).
  - rewrite Hc'. reflexivity.
  - unfold session_pad. rewrite Hp', Z.eqb_refl.
    destruct (Z.ltb_spec x 16); [reflexivity|lia].
Qed.

(** C9, amended.  Enabling the Launchkey Mini queues, in this
    order, the session-mode message [0x9f 12 127], one idle-colour message
    for each of the 16 drum pads, one stopped-status message for each of the
    session pads 0 to 15 with the colour stored for it, and the
    confirmation [0xbf 9 1] of knob bank 1, which it also stores in
    [g_nCCoffset]; the 16 drum notes are pairwise distinct and so are the 16
    session pad notes, so each pad is addressed once.  Enabling the
    Launchpad Mini queues only the nine-byte system-exclusive message that
    selects the programmer layout and selects no knob bank. *)
Theorem enable_sequence (s : state) :
  g_nInputProtocol s = g_nProtocol s ->
  g_nOutputProtocol s = g_nProtocol s ->
  0 <= STOPPED < 65536 ->
  (u32 DEVICE_LAUNCHKEY_MINI_MK3 = 0 -> g_nProtocol s = 0 ->
     g_vSendQueue (enableDevice true s)
     = g_vSendQueue s
       ++ [[0x9f; 12; 127]]
       ++ map (fun pad => [0x99; at_index g_nDrumPads pad; g_nDrumColour]) (seqZ 0 16)
       ++ map (fun pad => [0x90; at_index g_nLKM3SessionPads pad;
                           at_index (g_nPadColour s) pad]) (seqZ 0 16)
       ++ [[0xbf; 9; 1]]
     /\ g_nCCoffset (enableDevice true s) = 1
     /\ NoDup (map (at_index g_nDrumPads) (seqZ 0 16))
     /\ NoDup (map (at_index g_nLKM3SessionPads) (seqZ 0 16)))
  /\ (u32 DEVICE_LAUNCHPAD_MINI_MK3 <> u32 DEVICE_LAUNCHKEY_MINI_MK3 ->
      u32 DEVICE_LAUNCHPAD_MINI_MK3 <> UNSET ->
      g_nProtocol s = u32 DEVICE_LAUNCHPAD_MINI_MK3 ->
      g_vSendQueue (enableDevice true s)
      = g_vSendQueue s ++ [[0xf0; 0x00; 0x20; 0x29; 0x02; 0x0d; 0x00; 0x7f; 0xf7]]
      /\ g_nCCoffset (enableDevice true s) = g_nCCoffset s).
Proof.
  intros Hi Ho Hs.
  assert (Hok : link_ok s).
  { unfold link_ok. rewrite Hi, Ho, Z.eqb_refl. reflexivity. }
  split.
  - intros Hlk Hp. unfold enableDevice.
    rewrite isDeviceConnected_fixed by assumption. rewrite Hp.
    change (negb (negb (0 =? UNSET))) with false. cbv iota.
    set (s2 := osc_send _ _ _ _).
    assert (P2 : g_nProtocol s2 = 0) by exact Hp.
    rewrite P2, Hlk. change (0 =? 0) with true. cbn [negb]. cbv iota.
    rewrite (sendDeviceMidi3_accept 0x9f 12 127) by lia.
    set (s3 := set_g_vSendQueue _ s2).
    rewrite drum_pad_loop. set (s4 := set_g_vSendQueue _ s3).
    rewrite session_pad_loop by (assumption || (rewrite Hlk; exact Hp)).
    set (s5 := set_g_vSendQueue _ s4).
    assert (P5 : g_nProtocol s5 = 0) by exact Hp.
    assert (L5 : link_ok s5) by exact Hok.
    unfold selectKnobs. rewrite P5. change (0 =? 0) with true. cbv iota.
    rewrite isDeviceConnected_fixed by exact L5. rewrite P5.
    change (negb (0 =? UNSET) && (1 <? 7)) with true. cbv iota.
    rewrite (sendDeviceMidi3_accept 0xbf 9 (u8 1)) by lia.
    repeat split.
    + subst s5 s4 s3 s2.
      cbn [g_vSendQueue g_nCCoffset g_nPadColour set_g_vSendQueue set_g_nCCoffset
           osc_send set_g_oscClient server_run add_method set_g_oscServer].
      rewrite <- !app_assoc. reflexivity.
    + compute_done.
    + compute_done.
  - intros Hne Hset Hp. unfold enableDevice.
    rewrite isDeviceConnected_fixed by assumption. rewrite ?Hp.
    destruct (Z.eqb_spec (u32 DEVICE_LAUNCHPAD_MINI_MK3) UNSET); [contradiction|].
    cbn [negb]. cbv iota.
    cbn [g_nProtocol osc_send set_g_oscClient server_run add_method set_g_oscServer].
    rewrite Hp.
    destruct (Z.eqb_spec (u32 DEVICE_LAUNCHPAD_MINI_MK3) (u32 DEVICE_LAUNCHKEY_MINI_MK3));
      [contradiction|].
    rewrite Z.eqb_refl.
    rewrite sendDeviceMidi_accept by (discriminate || (cbn; lia)).
    split; reflexivity.
Qed.

(** ** Disconnection *)

(** With either recorded protocol unset, [initLaunchkey] only clears the
    active protocol: [enableDevice] is not reached. *)
Lemma initLaunchkey_half_connected protocol s :
  g_nInputProtocol s = UNSET \/ g_nOutputProtocol s = UNSET ->
  initLaunchkey protocol s = s \/ initLaunchkey protocol s = set_g_nProtocol UNSET s.
Proof.
  intros H. unfold initLaunchkey.
  destruct (protocol >=? g_nSupportedQuant); [left; reflexivity|]. right.
  unfold isDeviceConnected. cbn [g_nInputProtocol g_nOutputProtocol set_g_nProtocol].
  destruct (Z.eqb_spec (g_nInputProtocol s) (g_nOutputProtocol s)) as [E|E];
    cbn [g_nProtocol set_g_nProtocol].
  - assert (U : g_nInputProtocol s = UNSET) by (destruct H; congruence).
    rewrite U. reflexivity.
  - reflexivity.
Qed.

(** A disconnection notification queues nothing for the device and leaves
    the OSC client and server as they were. *)
Lemma disconnect_sends_nothing pSrcPort pDstPort s :
  let s' := onJackConnect pSrcPort pDstPort 0 s in
  g_vSendQueue s' = g_vSendQueue s
  /\ g_oscClient s' = g_oscClient s
  /\ g_oscServer s' = g_oscServer s.
Proof.
  set (P := fun st => g_vSendQueue st = g_vSendQueue s
                      /\ g_oscClient st = g_oscClient s
                      /\ g_oscServer st = g_oscServer s).
  assert (Hloop : forall record aliases,
             (forall v st, P st -> P (record v st)) ->
             (forall st, g_nInputProtocol (record UNSET st) = UNSET
                         \/ g_nOutputProtocol (record UNSET st) = UNSET) ->
             forall st, P st -> P (match_aliases record aliases 0 st)).
  { intros record aliases Hrec Hunset. unfold match_aliases.
    apply foldl_preserves. intros st alias _.
    apply foldl_preserves. intros st' j _ Hst'.
    destruct (strstr alias _); [|exact Hst'].
    change (u32 (if truthy 0 then j else -1)) with UNSET.
    destruct (initLaunchkey_half_connected j (record UNSET st') (Hunset st')) as [-> | ->].
    - apply Hrec. exact Hst'.
    - apply (Hrec UNSET) in Hst'. exact Hst'. }
  assert (H0 : P s) by (repeat split).
  cbv zeta. fold (P (onJackConnect pSrcPort pDstPort 0 s)).
  unfold onJackConnect.
  destruct (negb (g_pJackClient s)); [exact H0|].
  destruct (port_ptr pDstPort =? g_pInputPortDevice s).
  - apply Hloop; [intros v st Hst; exact Hst|intros st; left; reflexivity|exact H0].
  - destruct (port_ptr pSrcPort =? g_pOutputPortDevice s); [|exact H0].
    apply Hloop; [intros v st Hst; exact Hst|intros st; right; reflexivity|exact H0].
Qed.

(** * Further properties of the library *)

(** ** What every entry point keeps *)

Ltac break_ifs :=
  repeat match goal with
         | |- context [if ?c then _ else _] => destruct c
         end.

Lemma side_ok_queue s q :
  side_ok s -> Forall starts_with_status q -> side_ok (set_g_vSendQueue q s).
Proof. unfold side_ok. cbn. tauto. Qed.

Lemma side_ok_same s s' :
  g_nInputProtocol s' = g_nInputProtocol s ->
  g_nOutputProtocol s' = g_nOutputProtocol s ->
  g_nMidiChannel s' = g_nMidiChannel s ->
  g_nPadColour s' = g_nPadColour s ->
  g_vSendQueue s' = g_vSendQueue s ->
  side_ok s -> side_ok s'.
Proof. unfold side_ok. intros -> -> -> -> ->. tauto. Qed.

Lemma side_sendDeviceMidi3 a b c s : side_ok s -> side_ok (sendDeviceMidi3 a b c s).
Proof.
  intros H. unfold sendDeviceMidi3.
  destruct (Z.ltb_spec a 128); cbn [orb]; [exact H|].
  destruct (_ && _); [exact H|].
  apply side_ok_queue; [exact H|].
  apply Forall_app. split; [apply H|].
  constructor; [|constructor]. unfold starts_with_status.
  change (at_index [a; b; c] 0) with a. lia.
Qed.

Lemma side_sendDeviceMidi d s : side_ok s -> side_ok (sendDeviceMidi d s).
Proof.
  intros H. unfold sendDeviceMidi.
  destruct (msg_size d <? 1); cbn [orb]; [exact H|].
  destruct (Z.ltb_spec (at_index d 0) 128); [exact H|].
  apply side_ok_queue; [exact H|].
  apply Forall_app. split; [apply H|].
  constructor; [|constructor]. unfold starts_with_status. lia.
Qed.

Lemma side_sendPadStatusToDevice q st s :
  side_ok s -> side_ok (sendPadStatusToDevice q st s).
Proof.
  intros H. unfold sendPadStatusToDevice. destruct (session_pad s q); [|exact H].
  break_ifs; repeat apply side_sendDeviceMidi3; exact H.
Qed.

Lemma side_isDeviceConnected s : side_ok s -> side_ok (isDeviceConnected s).2.
Proof.
  intros H. unfold isDeviceConnected. cbn [snd].
  destruct (_ =? _); [|exact H]. revert H. apply side_ok_same; reflexivity.
Qed.

Lemma side_selectKnobs bank s : side_ok s -> side_ok (selectKnobs bank s).
Proof.
  intros H. unfold selectKnobs. destruct (g_nProtocol s =? 0); [|exact H].
  pose proof (side_isDeviceConnected s H) as H1.
  destruct (isDeviceConnected s) as [c s1]. cbn [snd] in H1.
  destruct (_ && _); [|exact H1].
  apply side_sendDeviceMidi3. revert H1. apply side_ok_same; reflexivity.
Qed.

Lemma side_selectPads mode s : side_ok s -> side_ok (selectPads mode s).
Proof.
  intros H. unfold selectPads. destruct (g_nProtocol s =? 0); [|exact H].
  pose proof (side_isDeviceConnected s H) as H1.
  destruct (isDeviceConnected s) as [c s1]. cbn [snd] in H1.
  destruct c; [|exact H1]. apply side_sendDeviceMidi3. exact H1.
Qed.

Lemma side_foldl {A} (step : state -> A -> state) (l : list A) :
  (forall st x, side_ok st -> side_ok (step st x)) ->
  forall s, side_ok s -> side_ok (foldl step s l).
Proof. intros Hstep. apply foldl_preserves. intros st x _. apply Hstep. Qed.

Lemma side_enableDevice enable s : side_ok s -> side_ok (enableDevice enable s).
Proof.
  intros H. unfold enableDevice.
  pose proof (side_isDeviceConnected s H) as H1.
  destruct (isDeviceConnected s) as [c s1]. cbn [snd] in H1.
  destruct (negb c); [exact H1|].
  set (s2 := if enable then _ else _).
  assert (H2 : side_ok s2).
  { revert H1. subst s2. destruct enable; apply side_ok_same; reflexivity. }
  clearbody s2.
  destruct (g_nProtocol s2 =? u32 DEVICE_LAUNCHKEY_MINI_MK3).
  - destruct (negb enable); [apply side_sendDeviceMidi3; exact H2|].
    apply side_selectKnobs.
    apply side_foldl; [intros; apply side_sendPadStatusToDevice; assumption|].
    apply side_foldl; [intros; apply side_sendDeviceMidi3; assumption|].
    apply side_sendDeviceMidi3. exact H2.
  - destruct (_ =? _); [apply side_sendDeviceMidi; exact H2|exact H2].
Qed.

Lemma side_initLaunchkey protocol s : side_ok s -> side_ok (initLaunchkey protocol s).
Proof.
  intros H. unfold initLaunchkey. destruct (_ >=? _); [exact H|].
  assert (H0 : side_ok (set_g_nProtocol UNSET s))
    by (revert H; apply side_ok_same; reflexivity).
  pose proof (side_isDeviceConnected _ H0) as H1.
  destruct (isDeviceConnected (set_g_nProtocol UNSET s)) as [c s1]. cbn [snd] in H1.
  destruct (negb c); [exact H1|].
  apply side_enableDevice. revert H1. apply side_ok_same; reflexivity.
Qed.

Lemma protocol_value_recorded connect j :
  In j (seqZ 0 g_nSupportedQuant) ->
  protocol_value (u32 (if truthy connect then j else -1)).
Proof.
  rewrite supported_indices. unfold protocol_value. simpl.
  intros [<-|[<-|[]]]; destruct (truthy connect); auto.
Qed.

Lemma side_onJackConnect pSrcPort pDstPort connect s :
  side_ok s -> side_ok (onJackConnect pSrcPort pDstPort connect s).
Proof.
  intros H. unfold onJackConnect. destruct (negb _); [exact H|].
  destruct (_ =? _); [|destruct (_ =? _); [|exact H]];
    unfold match_aliases; revert H; apply foldl_preserves; intros st alias _;
    apply foldl_preserves; intros st' j Hj Hst';
    (destruct (strstr alias _); [|exact Hst']);
    apply side_initLaunchkey;
    pose proof (protocol_value_recorded connect j Hj);
    unfold side_ok in *; cbn; tauto.
Qed.

Lemma palette_colour_value i : pad_colour_value (at_index g_nPadColours i).
Proof.
  apply at_index_Forall; [|left; reflexivity].
  apply Forall_forall. intros x Hx. right. apply list_elem_of_In. exact Hx.
Qed.

Lemma side_onOscStatus pArgs s : side_ok s -> side_ok (onOscStatus pArgs s).
Proof.
  intros H. unfold onOscStatus. destruct (_ <? 4); [exact H|].
  destruct (_ >? 63); [exact H|].
  apply side_sendPadStatusToDevice.
  unfold side_ok in *. cbn. rewrite length_insert.
  destruct H as (?&?&?&?&?&?). repeat (split; [assumption|]).
  split; [|assumption]. apply Forall_insert; [assumption|apply palette_colour_value].
Qed.

Lemma link_onOscStatus pArgs s : link (onOscStatus pArgs s) = link s.
Proof.
  unfold onOscStatus. destruct (_ <? 4); [reflexivity|].
  destruct (_ >? 63); [reflexivity|].
  rewrite link_sendPadStatusToDevice. reflexivity.
Qed.

Lemma side_setMidiChannel channel s :
  0 <= channel -> side_ok s -> side_ok (setMidiChannel channel s).
Proof.
  intros Hc H. unfold setMidiChannel.
  destruct (Z.ltb_spec channel 16); [|exact H].
  unfold side_ok in *. cbn. unfold u8. rewrite Z.mod_small by lia. tauto.
Qed.

Lemma link_selectPads mode s : link_ok s -> link (selectPads mode s) = link s.
Proof.
  intros H. unfold selectPads. destruct (g_nProtocol s =? 0); [|reflexivity].
  rewrite isDeviceConnected_fixed by assumption.
  destruct (negb _); [|reflexivity]. apply link_sendDeviceMidi3.
Qed.

(** Everything one decoded event can do: at most one message queued for the
    device, at most one OSC message sent, at most one event written for the
    host; the shift flag and the CC offset may change, nothing else does. *)
Lemma protocolHandler_effect pEvent out s :
  let r := protocolHandler pEvent out s in
  link r.1 = link s
  /\ g_pJackClient r.1 = g_pJackClient s
  /\ g_nMidiChannel r.1 = g_nMidiChannel s
  /\ g_nPadColour r.1 = g_nPadColour s
  /\ g_oscServer r.1 = g_oscServer s
  /\ (g_vSendQueue r.1 = g_vSendQueue s
      \/ exists m, g_vSendQueue r.1 = g_vSendQueue s ++ [m] /\ starts_with_status m)
  /\ (g_oscClient r.1 = g_oscClient s
      \/ exists m, g_oscClient r.1 = g_oscClient s ++ [m])
  /\ (r.2 = out \/ exists e, r.2 = buf_write out e).
Proof.
  cbv zeta. unfold protocolHandler.
  destruct pEvent as [ev|]; [|repeat split; left; reflexivity].
  unfold sendDeviceMidi3, sendMidi, osc_send.
  break_ifs; cbn;
    (split; [reflexivity|]); (split; [reflexivity|]); (split; [reflexivity|]);
    (split; [reflexivity|]); (split; [reflexivity|]);
    (split; [first [left; reflexivity
                   | right; eexists; split; [reflexivity|apply Z.leb_le; reflexivity]]|]);
    (split; [first [left; reflexivity | right; eexists; reflexivity]|]);
    first [left; reflexivity | right; eexists; reflexivity].
Qed.

Lemma decode_events_cons ev events out s :
  decode_events (ev :: events) out s
  = decode_events events (protocolHandler (Some ev) out s).2
                         (protocolHandler (Some ev) out s).1.
Proof.
  unfold decode_events. cbn [foldl fst snd].
  destruct (protocolHandler (Some ev) out s). reflexivity.
Qed.

(** The effect of decoding a whole input buffer. *)
Lemma decode_events_effect events : forall out s,
  let r := decode_events events out s in
  link r.1 = link s
  /\ g_pJackClient r.1 = g_pJackClient s
  /\ g_nMidiChannel r.1 = g_nMidiChannel s
  /\ g_nPadColour r.1 = g_nPadColour s
  /\ g_oscServer r.1 = g_oscServer s
  /\ (exists q, g_vSendQueue r.1 = g_vSendQueue s ++ q
                /\ (length q <= length events)%nat /\ Forall starts_with_status q)
  /\ (exists o, g_oscClient r.1 = g_oscClient s ++ o /\ (length o <= length events)%nat)
  /\ (exists h, r.2 = {| buf_room := buf_room out; buf_events := buf_events out ++ h |}
                /\ (length h <= length events)%nat).
Proof.
  induction events as [|ev events IH]; intros out s; cbv zeta.
  - unfold decode_events. cbn [foldl fst snd].
    repeat (split; [reflexivity|]).
    split; [exists []; rewrite app_nil_r; auto|].
    split; [exists []; rewrite app_nil_r; auto|].
    exists []. rewrite app_nil_r. destruct out. auto.
  - rewrite decode_events_cons.
    pose proof (protocolHandler_effect (Some ev) out s) as H1. cbv zeta in H1.
    destruct (protocolHandler (Some ev) out s) as [s1 out1]. cbn [fst snd] in *.
    destruct H1 as (L1 & J1 & C1 & P1 & S1 & Q1 & O1 & B1).
    specialize (IH out1 s1). cbv zeta in IH.
    destruct IH as (L & J & C & P & S & (q & Hq & Lq & Fq) & (o & Ho & Lo) & (h & Hh & Lh)).
    split; [congruence|]. split; [congruence|]. split; [congruence|].
    split; [congruence|]. split; [congruence|].
    split; [|split].
    + destruct Q1 as [E|(m & E & Hm)]; rewrite Hq, E.
      * exists q. cbn [length]. auto with arith.
      * exists (m :: q). rewrite <- app_assoc. cbn [length]. auto with arith.
    + destruct O1 as [E|(m & E)]; rewrite Ho, E.
      * exists o. cbn [length]. auto with arith.
      * exists (m :: o). rewrite <- app_assoc. cbn [length]. auto with arith.
    + destruct B1 as [E|(e & E)]; rewrite Hh, E.
      * exists h. cbn [length]. auto with arith.
      * exists (e :: h). cbn [buf_write buf_room buf_events length].
        rewrite <- app_assoc. auto with arith.
Qed.

(** The drain loop splits the queue in two and moves the first part into
    the buffer. *)
Lemma drain_send_queue_split queue : forall dev,
  exists sent rest,
    drain_send_queue queue dev
    = (rest, {| buf_room := buf_room dev; buf_events := buf_events dev ++ sent |})
    /\ queue = sent ++ rest.
Proof.
  induction queue as [|msg queue IH]; intros dev; cbn [drain_send_queue].
  - exists [], []. rewrite app_nil_r. destruct dev. auto.
  - destruct (jack_midi_event_reserve dev 0 (msg_size msg)).
    + destruct (IH (buf_write dev msg)) as (sent & rest & E & Hq).
      exists (msg :: sent), rest. rewrite E. cbn [buf_write buf_room buf_events].
      rewrite <- app_assoc. split; [reflexivity|]. rewrite Hq. reflexivity.
    + exists [], (msg :: queue). rewrite app_nil_r. destruct dev. auto.
Qed.

(** One process cycle, whole: the decoded globals with the queue cut down to
    what the drain left, the host buffer holding this cycle's events only,
    and the device buffer holding the part of the queue that was sent. *)
Lemma onJackProcess_effect events out dev s :
  g_pJackClient s = true ->
  let decoded := decode_events events (jack_midi_clear_buffer out) s in
  exists sent rest,
    onJackProcess events out dev s
    = (set_g_vSendQueue rest decoded.1, decoded.2,
       {| buf_room := buf_room dev; buf_events := sent |})
    /\ g_vSendQueue decoded.1 = sent ++ rest.
Proof.
  intros Hc decoded. unfold onJackProcess. rewrite Hc. cbn [negb].
  fold (decode_events events (jack_midi_clear_buffer out) s). fold decoded.
  destruct decoded as [s1 out1]. cbn [fst snd].
  destruct (drain_send_queue_split (g_vSendQueue s1) (jack_midi_clear_buffer dev))
    as (sent & rest & E & Hq).
  rewrite E. exists sent, rest. split; [reflexivity|exact Hq].
Qed.

Lemma Forall_status_split (sent rest : list MIDI_MESSAGE) :
  Forall starts_with_status (sent ++ rest) ->
  Forall starts_with_status sent /\ Forall starts_with_status rest.
Proof. apply Forall_app. Qed.

Lemma api_step_globals_ok call s : globals_ok s -> globals_ok (api_step s call).
Proof.
  intros [Hl Hs]. destruct call; cbn [api_step].
  - split; [apply onJackConnect_link_ok; exact Hl|apply side_onJackConnect; exact Hs].
  - destruct (g_pJackClient s) eqn:Hc.
    + destruct (onJackProcess_effect events pOutputBuffer pDeviceOutputBuffer s Hc)
        as (sent & rest & E & Hq).
      rewrite E. cbn [fst].
      pose proof (decode_events_effect events (jack_midi_clear_buffer pOutputBuffer) s) as D.
      cbv zeta in D.
      destruct (decode_events events (jack_midi_clear_buffer pOutputBuffer) s) as [s1 out1].
      cbn [fst snd] in *.
      destruct D as (L & _ & C & P & _ & (q & Hq' & _ & Fq) & _ & _).
      split.
      * eapply link_ok_of_link; [|exact Hl]. rewrite <- L. reflexivity.
      * unfold side_ok in *. cbn.
        injection L as L1 L2 L3. rewrite L1, L2, C, P.
        destruct Hs as (?&?&?&?&?&Hqs). repeat (split; [assumption|]).
        assert (F : Forall starts_with_status (sent ++ rest)).
        { rewrite <- Hq, Hq'. apply Forall_app. auto. }
        apply Forall_status_split in F. apply F.
    + unfold onJackProcess. rewrite Hc. cbn. split; assumption.
  - split; [eapply link_ok_of_link; [apply link_onOscStatus|exact Hl]
           |apply side_onOscStatus; exact Hs].
  - split.
    + unfold setMidiChannel. destruct (_ <? 16); exact Hl.
    + apply side_setMidiChannel; [|exact Hs]. unfold u32. apply Z.mod_pos_bound. lia.
  - split; [eapply link_ok_of_link; [apply link_selectKnobs; exact Hl|exact Hl]
           |apply side_selectKnobs; exact Hs].
  - split; [eapply link_ok_of_link; [apply link_selectPads; exact Hl|exact Hl]
           |apply side_selectPads; exact Hs].
Qed.

Lemma initial_globals_ok client pIn pOutDev pOut :
  globals_ok (initial_state client pIn pOutDev pOut).
Proof.
  split; [reflexivity|].
  assert (F : Forall pad_colour_value (replicate 64 0))
    by (apply Forall_replicate; left; reflexivity).
  unfold side_ok, protocol_value.
  cbn [initial_state g_nInputProtocol g_nOutputProtocol g_nMidiChannel g_nPadColour
       g_vSendQueue].
  rewrite length_replicate.
  split; [auto|]. split; [auto|]. split; [lia|]. split; [reflexivity|].
  split; [exact F|constructor].
Qed.

Lemma reachable_globals_ok client pIn pOutDev pOut (calls : list api_call) :
  globals_ok (foldl api_step (initial_state client pIn pOutDev pOut) calls).
Proof.
  apply (foldl_preserves globals_ok).
  - intros st call _. apply api_step_globals_ok.
  - apply initial_globals_ok.
Qed.

Lemma pad_colour_value_range c : pad_colour_value c -> 0 <= c <= 127.
Proof.
  unfold pad_colour_value, g_nPadColours. cbn [In].
  intros [->|H]; [lia|]. repeat (destruct H as [<-|H]; [lia|]). destruct H.
Qed.

(** X1.  No entry point breaks the connection invariant: after any run of
    connection notifications, process cycles, status notifications and
    public calls, in any order, the active protocol is set exactly when the
    two recorded protocols are equal and set, and each of the three is
    0, 1 or unset. *)
Theorem api_keeps_connection_invariant
    (client : bool) (pIn pOutDev pOut : Z) (calls : list api_call) :
  let s := foldl api_step (initial_state client pIn pOutDev pOut) calls in
  connection_invariant s
  /\ protocol_value (g_nInputProtocol s)
  /\ protocol_value (g_nOutputProtocol s)
  /\ protocol_value (g_nProtocol s).
Proof.
  cbv zeta.
  destruct (reachable_globals_ok client pIn pOutDev pOut calls) as [Hl (Hi & Ho & _)].
  split; [apply link_ok_invariant; exact Hl|].
  split; [exact Hi|]. split; [exact Ho|].
  rewrite Hl. destruct (_ =? _); [exact Hi|right; right; reflexivity].
Qed.

(** X2.  Everything in the send queue starts with a status byte, after any
    run of calls; so does every event a process cycle of a started client
    writes into the device output buffer. *)
Theorem device_messages_start_with_status
    (client : bool) (pIn pOutDev pOut : Z) (calls : list api_call)
    (events : list jack_midi_event_t) (out dev : jack_midi_buffer) :
  let s := foldl api_step (initial_state client pIn pOutDev pOut) calls in
  Forall starts_with_status (g_vSendQueue s)
  /\ (g_pJackClient s = true ->
      Forall starts_with_status (buf_events (onJackProcess events out dev s).2)).
Proof.
  cbv zeta.
  destruct (reachable_globals_ok client pIn pOutDev pOut calls) as [_ Hs].
  set (s := foldl api_step _ calls) in *.
  split; [apply Hs|]. intros Hc.
  destruct (onJackProcess_effect events out dev s Hc) as (sent & rest & E & Hq).
  rewrite E. cbn [snd buf_events].
  pose proof (decode_events_effect events (jack_midi_clear_buffer out) s) as D.
  cbv zeta in D. destruct D as (_ & _ & _ & _ & _ & (q & Hq' & _ & Fq) & _).
  assert (F : Forall starts_with_status (sent ++ rest)).
  { rewrite <- Hq, Hq'. apply Forall_app. split; [apply Hs|exact Fq]. }
  apply Forall_status_split in F. apply F.
Qed.

(** X3.  The MIDI channel stays within 0 to 15 whatever is called:
    [setMidiChannel] stores a channel below 16 and ignores any other. *)
Theorem midi_channel_stays_in_range
    (client : bool) (pIn pOutDev pOut : Z) (calls : list api_call) (channel : Z) :
  let s := foldl api_step (initial_state client pIn pOutDev pOut) calls in
  0 <= g_nMidiChannel s < 16
  /\ (16 <= u32 channel -> api_step s (SetMidiChannel channel) = s)
  /\ (u32 channel < 16 ->
      g_nMidiChannel (api_step s (SetMidiChannel channel)) = u32 channel).
Proof.
  cbv zeta.
  destruct (reachable_globals_ok client pIn pOutDev pOut calls) as [_ Hs].
  split; [apply Hs|]. cbn [api_step]. unfold setMidiChannel.
  assert (0 <= u32 channel) by (unfold u32; apply Z.mod_pos_bound; lia).
  split; intros Hc; destruct (Z.ltb_spec (u32 channel) 16); try lia; [reflexivity|].
  cbn. unfold u8. apply Z.mod_small. lia.
Qed.

(** X4.  The pad colour table keeps its 64 entries and every entry is a
    MIDI data byte (0 to 127), whatever is called; so the colour byte of
    every pad message is valid. *)
Theorem pad_colours_stay_valid
    (client : bool) (pIn pOutDev pOut : Z) (calls : list api_call) (i : Z) :
  let s := foldl api_step (initial_state client pIn pOutDev pOut) calls in
  length (g_nPadColour s) = 64%nat
  /\ 0 <= at_index (g_nPadColour s) i <= 127.
Proof.
  cbv zeta.
  destruct (reachable_globals_ok client pIn pOutDev pOut calls)
    as [_ (_ & _ & _ & Hlen & Hcol & _)].
  split; [exact Hlen|].
  apply (at_index_Forall (fun c => 0 <= c <= 127)); [|lia].
  eapply Forall_impl; [exact Hcol|]. apply pad_colour_value_range.
Qed.

(** ** More on the drain and the process cycle *)

(** X5.  Queue order preservation: when JACK grants every reservation, one
    drain empties the queue and appends its events to the device buffer in
    queue order. *)
Theorem drain_with_room_empties_queue (queue : list MIDI_MESSAGE) (dev : jack_midi_buffer) :
  (forall b n, jack_midi_event_reserve b 0 n = true) ->
  drain_send_queue queue dev
  = ([], {| buf_room := buf_room dev; buf_events := buf_events dev ++ queue |}).
Proof.
  intros Hroom. revert dev.
  induction queue as [|msg queue IH]; intros dev; cbn [drain_send_queue].
  - rewrite app_nil_r. destruct dev. reflexivity.
  - rewrite Hroom, IH. cbn [buf_write buf_room buf_events].
    rewrite <- app_assoc. reflexivity.
Qed.

(** X6.  A refused event blocks the queue until the buffer changes: draining
    what a drain left, into the buffer as that drain left it, sends nothing
    more, even when a later, shorter event would fit. *)
Theorem drain_send_queue_idempotent (queue : list MIDI_MESSAGE) (dev : jack_midi_buffer) :
  drain_send_queue (drain_send_queue queue dev).1 (drain_send_queue queue dev).2
  = drain_send_queue queue dev.
Proof.
  revert dev. induction queue as [|msg queue IH]; intros dev; cbn [drain_send_queue].
  - reflexivity.
  - destruct (jack_midi_event_reserve dev 0 (msg_size msg)) eqn:E.
    + apply IH.
    + cbn [fst snd drain_send_queue]. rewrite E. reflexivity.
Qed.

(** X7.  A process cycle of a started client loses and duplicates nothing:
    the queue as input decoding left it is the events now in the device
    buffer followed by the events still queued; both output buffers are
    cleared first, so the device buffer holds nothing from earlier cycles
    and the host buffer holds exactly what this cycle's decoding wrote. *)
Theorem process_cycle_conserves_messages
    (events : list jack_midi_event_t) (out dev : jack_midi_buffer) (s : state) :
  g_pJackClient s = true ->
  let decoded := decode_events events (jack_midi_clear_buffer out) s in
  let cycle := onJackProcess events out dev s in
  g_vSendQueue decoded.1 = buf_events cycle.2 ++ g_vSendQueue cycle.1.1
  /\ cycle.1.2 = decoded.2
  /\ buf_room cycle.2 = buf_room dev.
Proof.
  intros Hc decoded cycle. subst cycle.
  destruct (onJackProcess_effect events out dev s Hc) as (sent & rest & E & Hq).
  fold decoded in E, Hq. rewrite E. cbn. auto.
Qed.

(** X8.  Input decoding is bounded: a cycle with [n] input events writes at
    most [n] events to the host buffer, sends at most [n] OSC messages and
    adds at most [n] messages to what is queued for or sent to the device. *)
Theorem process_cycle_output_bounded
    (events : list jack_midi_event_t) (out dev : jack_midi_buffer) (s : state) :
  g_pJackClient s = true ->
  let cycle := onJackProcess events out dev s in
  (length (buf_events cycle.1.2) <= length events)%nat
  /\ (length (g_oscClient cycle.1.1) <= length (g_oscClient s) + length events)%nat
  /\ (length (buf_events cycle.2) + length (g_vSendQueue cycle.1.1)
      <= length (g_vSendQueue s) + length events)%nat.
Proof.
  intros Hc cycle. subst cycle.
  destruct (onJackProcess_effect events out dev s Hc) as (sent & rest & E & Hq).
  pose proof (decode_events_effect events (jack_midi_clear_buffer out) s) as D.
  cbv zeta in D.
  destruct D as (_ & _ & _ & _ & _ & (q & Hq' & Lq & _) & (o & Ho & Lo) & (h & Hh & Lh)).
  rewrite E. cbn [fst snd buf_events g_vSendQueue g_oscClient set_g_vSendQueue].
  rewrite Hh, Ho. cbn [buf_events jack_midi_clear_buffer app].
  rewrite length_app.
  split; [exact Lh|]. split; [lia|].
  rewrite Hq' in Hq. apply (f_equal length) in Hq. rewrite !length_app in Hq.
  unfold MIDI_MESSAGE in *. lia.
Qed.

Lemma protocolHandler_other_protocol pEvent out s :
  g_nProtocol s <> 0 -> protocolHandler pEvent out s = (s, out).
Proof.
  intros Hp. unfold protocolHandler. destruct pEvent as [ev|]; [|reflexivity].
  destruct (negb _); [reflexivity|].
  destruct (Z.eqb_spec (g_nProtocol s) 0); [contradiction|reflexivity].
Qed.

Lemma decode_events_other_protocol events : forall out s,
  g_nProtocol s <> 0 -> decode_events events out s = (s, out).
Proof.
  induction events as [|ev events IH]; intros out s Hp; [reflexivity|].
  rewrite decode_events_cons, protocolHandler_other_protocol by assumption.
  apply IH. exact Hp.
Qed.

(** X9.  Only the Launchkey Mini is decoded: while the active protocol is
    not 0 (the Launchpad Mini is active, or no device is), a process cycle
    ignores every input event; the host buffer comes back empty and the
    globals change only by what the drain takes off the queue. *)
Theorem process_cycle_without_launchkey
    (events : list jack_midi_event_t) (out dev : jack_midi_buffer) (s : state) :
  g_pJackClient s = true ->
  g_nProtocol s <> 0 ->
  let cycle := onJackProcess events out dev s in
  cycle.1.2 = jack_midi_clear_buffer out
  /\ cycle.1.1
     = set_g_vSendQueue
         (drain_send_queue (g_vSendQueue s) (jack_midi_clear_buffer dev)).1 s
  /\ cycle.2 = (drain_send_queue (g_vSendQueue s) (jack_midi_clear_buffer dev)).2.
Proof.
  intros Hc Hp cycle. subst cycle. unfold onJackProcess. rewrite Hc. cbn [negb].
  fold (decode_events events (jack_midi_clear_buffer out) s).
  rewrite decode_events_other_protocol by assumption.
  destruct (drain_send_queue _ _). auto.
Qed.

(** ** More on decoding *)

(** X10.  The pad tables and the decoder agree: a note-on for the note that
    [g_nLKM3SessionPads] gives to sequence [i] publishes
    [/cuia/TOGGLE_SEQUENCE i], for each of the 16 session pads and whatever
    the velocity; nothing is queued for the device or written for the
    host. *)
Theorem session_pad_press_toggles_its_sequence
    (s : state) (out : jack_midi_buffer) (t b0 velocity sequence : Z) :
  g_nProtocol s = 0 ->
  Z.land b0 0xF0 = 0x90 ->
  0 <= sequence < 16 ->
  protocolHandler
    (Some {| time := t; buffer := [b0; at_index g_nLKM3SessionPads sequence; velocity] |})
    out s
  = (osc_send "/cuia/TOGGLE_SEQUENCE" "i" [OscInt sequence] s, out).
Proof.
  intros Hp Hc Hs. unfold protocolHandler. decode_bytes. rewrite Hp, Hc.
  assert (H : In sequence (seqZ 0 16))
    by (apply list_elem_of_In, elem_of_seqZ; lia).
  rewrite pad_indices in H. cbn [In] in H.
  repeat (destruct H as [<-|H]; [reflexivity|]). destruct H.
Qed.

(** X11.  A drum pad hit (note 36 to 51) lights the pad and reaches the
    host on channel 10, whatever channel it came in on: note-on queues
    [0x99 note 90] for the device and forwards [0x99 note velocity];
    note-off queues the idle colour [0x99 note 79] and forwards
    [0x89 note velocity].  When JACK refuses the host reservation the pad
    message is queued all the same and nothing is forwarded. *)
Theorem drum_pad_hit (s : state) (out : jack_midi_buffer) (t b0 note velocity : Z) :
  g_nProtocol s = 0 ->
  35 < note < 52 ->
  let decode := protocolHandler (Some {| time := t; buffer := [b0; note; velocity] |}) out s in
  let forwarded status :=
    if jack_midi_event_reserve out 0 3
    then buf_write out [status; u8 note; u8 velocity] else out in
  (Z.land b0 0xF0 = 0x90 ->
     decode = (set_g_vSendQueue (g_vSendQueue s ++ [[0x99; note; g_nDrumOnColour]]) s,
               forwarded 0x99))
  /\ (Z.land b0 0xF0 = 0x80 ->
      decode = (set_g_vSendQueue (g_vSendQueue s ++ [[0x99; note; g_nDrumColour]]) s,
                forwarded 0x89)).
Proof.
  intros Hp Hn decode forwarded. subst decode forwarded.
  unfold protocolHandler. decode_bytes. rewrite Hp.
  assert (G : (note >? 35) = true) by (apply Z.gtb_lt; lia).
  assert (L : (note <? 52) = true) by (apply Z.ltb_lt; lia).
  split; intros Hc; rewrite Hc; cbn [Z.eqb Pos.eqb]; rewrite G, L; cbn [andb];
    rewrite sendDeviceMidi3_accept by lia; unfold sendMidi; reflexivity.
Qed.

(** X12.  The shift button (controller 108) only moves the shift flag:
    pressing it sets the flag and releasing it clears the flag, neither
    queues, forwards or publishes anything, and press followed by release
    brings the globals back to what they were. *)
Theorem shift_press_release (s : state) (out : jack_midi_buffer) (t b0 value : Z) :
  g_nProtocol s = 0 ->
  Z.land b0 0xF0 = 0xb0 ->
  g_bShift s = false ->
  value <> 0 ->
  let pressed :=
    protocolHandler (Some {| time := t; buffer := [b0; 108; value] |}) out s in
  pressed = (set_g_bShift true s, out)
  /\ protocolHandler (Some {| time := t; buffer := [b0; 108; 0] |}) pressed.2 pressed.1
     = (s, out).
Proof.
  intros Hp Hc Hs Hv pressed.
  assert (E : pressed = (set_g_bShift true s, out)).
  { subst pressed. unfold protocolHandler. decode_bytes. rewrite Hp, Hc.
    rewrite (truthy_nonzero value Hv). reflexivity. }
  split; [exact E|]. rewrite E. cbn [fst snd].
  assert (R : set_g_bShift (truthy 0) (set_g_bShift true s) = s).
  { unfold set_g_bShift. cbn. rewrite <- Hs. apply state_eta. }
  unfold protocolHandler. decode_bytes. cbn [g_nProtocol set_g_bShift].
  rewrite Hp, Hc. change (108 =? 9) with false. change (108 =? 108) with true.
  cbv iota. rewrite R, Hs. reflexivity.
Qed.

(** X13.  A status notification recolours before it encodes: with the
    Launchkey Mini active, a notification that sequence [i] (below 16) of
    group [g] is playing stores the palette colour of [g] modulo 16 for pad
    [i] and queues the playing message with that new colour, not the one
    stored before.  The bank argument is not looked at. *)
Theorem status_notification_recolours_pad
    (s : state) (bank sequence group : Z) :
  status_codes_distinct ->
  0 <= PLAYING < 256 ->
  length (g_nPadColour s) = 64%nat ->
  g_nProtocol s = u32 DEVICE_LAUNCHKEY_MINI_MK3 ->
  0 <= sequence < 16 ->
  0 <= group < 256 ->
  let colour := at_index g_nPadColours (group mod 16) in
  onOscStatus [bank; sequence; PLAYING; group] s
  = set_g_vSendQueue
      (g_vSendQueue s ++ [[0x92; at_index g_nLKM3SessionPads sequence; colour]])
      (set_g_nPadColour (<[Z.to_nat sequence := colour]> (g_nPadColour s)) s).
Proof.
  intros Hcodes Hpl Hlen Hp Hseq Hg colour.
  destruct (status_codes_apart Hcodes) as (?&?&?&?&?&?&?&?&?&?&?&?&?&?&?).
  unfold onOscStatus. cbn [length]. cbn [Z.of_nat Pos.of_succ_nat Pos.succ Z.ltb Z.compare Pos.compare Pos.compare_cont].
  change (at_index [bank; sequence; PLAYING; group] 1) with sequence.
  change (at_index [bank; sequence; PLAYING; group] 2) with PLAYING.
  change (at_index [bank; sequence; PLAYING; group] 3) with group.
  unfold u8.
  rewrite (Z.mod_small sequence 256), (Z.mod_small PLAYING 256),
    (Z.mod_small group 256) by lia.
  fold colour.
  destruct (Z.gtb_spec sequence 63); [lia|].
  set (s1 := set_g_nPadColour _ s).
  assert (Hpad : session_pad s1 sequence = Some (at_index g_nLKM3SessionPads sequence)).
  { unfold session_pad. cbn [g_nProtocol s1 set_g_nPadColour]. rewrite Hp, Z.eqb_refl.
    destruct (Z.ltb_spec sequence 16); [reflexivity|lia]. }
  pose proof (session_pad_range _ _ _ Hpad) as Hr.
  unfold sendPadStatusToDevice. rewrite Hpad. decide_status.
  rewrite sendDeviceMidi3_accept by lia.
  assert (Hcol : at_index (g_nPadColour s1) sequence = colour).
  { unfold at_index, s1. cbn [g_nPadColour set_g_nPadColour].
    rewrite list_lookup_insert_eq by lia. reflexivity. }
  rewrite Hcol. reflexivity.
Qed.

(** ** More on connection detection *)

Lemma match_aliases_no_match record aliases connect s :
  (forall alias token, In alias aliases -> In token g_sSupported ->
                       strstr alias token = false) ->
  match_aliases record aliases connect s = s.
Proof.
  intros Hno. unfold match_aliases.
  apply (foldl_preserves (fun st => st = s)); [|reflexivity].
  intros st alias Ha ->.
  apply (foldl_preserves (fun st => st = s)); [|reflexivity].
  intros st' j Hj ->.
  rewrite Hno; [reflexivity|exact Ha|].
  rewrite supported_indices in Hj. cbn [In] in Hj.
  destruct Hj as [<-|[<-|[]]]; cbn; auto.
Qed.

(** X14.  A notification that is none of the library's business changes
    nothing: one that involves neither the device input port as destination
    nor the device output port as source, and one whose remote port has no
    alias containing a supported device name, whether it connects or
    disconnects. *)
Theorem foreign_notification_ignored
    (pSrcPort pDstPort : jack_port_t) (connect : Z) (s : state) :
  (port_ptr pDstPort <> g_pInputPortDevice s
   /\ port_ptr pSrcPort <> g_pOutputPortDevice s)
  \/ (forall alias token,
        In alias (port_aliases pSrcPort ++ port_aliases pDstPort) ->
        In token g_sSupported -> strstr alias token = false) ->
  onJackConnect pSrcPort pDstPort connect s = s.
Proof.
  intros H. unfold onJackConnect. destruct (negb _); [reflexivity|].
  destruct H as [[Hd Hs]|Hno].
  - destruct (Z.eqb_spec (port_ptr pDstPort) (g_pInputPortDevice s)); [contradiction|].
    destruct (Z.eqb_spec (port_ptr pSrcPort) (g_pOutputPortDevice s)); [contradiction|].
    reflexivity.
  - destruct (_ =? _); [|destruct (_ =? _); [|reflexivity]];
      apply match_aliases_no_match; intros alias token Ha;
      apply Hno; apply in_or_app; auto.
Qed.

(** What one alias naming exactly one supported device makes of the
    globals. *)
Lemma match_single_alias record alias connect j s :
  (j = 0 \/ j = 1) ->
  strstr alias (g_sSupported !!! Z.to_nat j) = true ->
  strstr alias (g_sSupported !!! Z.to_nat (1 - j)) = false ->
  match_aliases record [alias] connect s
  = initLaunchkey j (record (if truthy connect then j else UNSET) s).
Proof.
  intros Hj Hyes Hno. unfold match_aliases. rewrite supported_indices.
  cbn [foldl].
  destruct Hj as [-> | ->].
  - change (Z.to_nat (1 - 0)) with (Z.to_nat 1) in Hno. rewrite Hyes.
    set (s1 := initLaunchkey 0 _). rewrite Hno.
    subst s1. destruct (truthy connect); reflexivity.
  - change (Z.to_nat (1 - 1)) with (Z.to_nat 0) in Hno. rewrite Hno, Hyes.
    destruct (truthy connect); reflexivity.
Qed.

(** X15.  What a notification on the device input port records and when it
    activates: if the single alias of the remote port contains the name of
    exactly one supported device [j], the input protocol becomes [j] on
    connection and unset on disconnection, the output protocol is not
    touched, and the active protocol becomes the recorded value if the
    output protocol equals it, and unset otherwise.  Connecting the second
    end of a device thus activates it; disconnecting either end
    deactivates. *)
Theorem input_notification_recorded
    (pSrcPort pDstPort : jack_port_t) (alias : string) (connect j : Z) (s : state) :
  g_pJackClient s = true ->
  port_ptr pDstPort = g_pInputPortDevice s ->
  port_aliases pSrcPort = [alias] ->
  (j = 0 \/ j = 1) ->
  strstr alias (g_sSupported !!! Z.to_nat j) = true ->
  strstr alias (g_sSupported !!! Z.to_nat (1 - j)) = false ->
  let s' := onJackConnect pSrcPort pDstPort connect s in
  let recorded := if truthy connect then j else UNSET in
  g_nInputProtocol s' = recorded
  /\ g_nOutputProtocol s' = g_nOutputProtocol s
  /\ g_nProtocol s' = (if recorded =? g_nOutputProtocol s then recorded else UNSET).
Proof.
  intros Hc Hd Ha Hj Hyes Hno s' recorded. subst s'.
  unfold onJackConnect. rewrite Hc, Hd, Z.eqb_refl, Ha. cbn [negb].
  rewrite (match_single_alias _ alias connect j s Hj Hyes Hno). fold recorded.
  destruct (initLaunchkey_link_ok j (set_g_nInputProtocol recorded s))
    as (Hok & Hin & Hout).
  { unfold g_nSupportedQuant. cbn. lia. }
  rewrite Hok, Hin, Hout. auto.
Qed.

(** X16.  The same for the device output port, which is looked at only when
    the destination is not the device input port. *)
Theorem output_notification_recorded
    (pSrcPort pDstPort : jack_port_t) (alias : string) (connect j : Z) (s : state) :
  g_pJackClient s = true ->
  port_ptr pDstPort <> g_pInputPortDevice s ->
  port_ptr pSrcPort = g_pOutputPortDevice s ->
  port_aliases pDstPort = [alias] ->
  (j = 0 \/ j = 1) ->
  strstr alias (g_sSupported !!! Z.to_nat j) = true ->
  strstr alias (g_sSupported !!! Z.to_nat (1 - j)) = false ->
  let s' := onJackConnect pSrcPort pDstPort connect s in
  let recorded := if truthy connect then j else UNSET in
  g_nOutputProtocol s' = recorded
  /\ g_nInputProtocol s' = g_nInputProtocol s
  /\ g_nProtocol s' = (if g_nInputProtocol s =? recorded then recorded else UNSET).
Proof.
  intros Hc Hd Hs Ha Hj Hyes Hno s' recorded. subst s'.
  unfold onJackConnect. rewrite Hc. cbn [negb].
  destruct (Z.eqb_spec (port_ptr pDstPort) (g_pInputPortDevice s)); [contradiction|].
  rewrite Hs, Z.eqb_refl, Ha.
  rewrite (match_single_alias _ alias connect j s Hj Hyes Hno). fold recorded.
  destruct (initLaunchkey_link_ok j (set_g_nOutputProtocol recorded s))
    as (Hok & Hin & Hout).
  { unfold g_nSupportedQuant. cbn. lia. }
  rewrite Hok, Hin, Hout. cbn [g_nInputProtocol g_nOutputProtocol set_g_nOutputProtocol].
  split; [reflexivity|]. split; [reflexivity|].
  destruct (Z.eqb_spec (g_nInputProtocol s) recorded); congruence.
Qed.

(** X17.  Nothing is queued for a device that is not there: while the
    active protocol is unset, no process cycle, status notification or
    public call adds to the send queue; the queue can only lose events from
    its head to the drain. *)
Theorem nothing_queued_without_device (call : api_call) (s : state) :
  g_nProtocol s = UNSET ->
  u32 DEVICE_LAUNCHKEY_MINI_MK3 <> UNSET ->
  u32 DEVICE_LAUNCHPAD_MINI_MK3 <> UNSET ->
  (forall pSrcPort pDstPort connect, call <> JackConnect pSrcPort pDstPort connect) ->
  exists sent, g_vSendQueue s = sent ++ g_vSendQueue (api_step s call).
Proof.
  intros Hp Hlk Hlp Hcall.
  assert (H0 : g_nProtocol s <> 0) by (rewrite Hp; discriminate).
  assert (E0 : (g_nProtocol s =? 0) = false) by (apply Z.eqb_neq; exact H0).
  destruct call; cbn [api_step].
  - destruct (Hcall pSrcPort pDstPort connect). reflexivity.
  - unfold onJackProcess. destruct (negb _); [exists []; reflexivity|].
    fold (decode_events events (jack_midi_clear_buffer pOutputBuffer) s).
    rewrite decode_events_other_protocol by assumption.
    destruct (drain_send_queue_split (g_vSendQueue s)
                (jack_midi_clear_buffer pDeviceOutputBuffer)) as (sent & rest & E & Hq).
    rewrite E. exists sent. exact Hq.
  - exists []. unfold onOscStatus. destruct (_ <? 4); [reflexivity|].
    destruct (_ >? 63); [reflexivity|].
    unfold sendPadStatusToDevice, session_pad. cbn [g_nProtocol set_g_nPadColour].
    rewrite Hp.
    destruct (Z.eqb_spec UNSET (u32 DEVICE_LAUNCHKEY_MINI_MK3)); [congruence|].
    destruct (Z.eqb_spec UNSET (u32 DEVICE_LAUNCHPAD_MINI_MK3)); [congruence|].
    reflexivity.
  - exists []. unfold setMidiChannel. destruct (_ <? 16); reflexivity.
  - exists []. unfold selectKnobs. rewrite E0. reflexivity.
  - exists []. unfold selectPads. rewrite E0. reflexivity.
Qed.

(** ** Listing the supported devices *)

Lemma getSupported_exhausted n nIndex s :
  g_nSupportedQuant <= nIndex ->
  getSupported_next n nIndex s = replicate n None.
Proof.
  revert nIndex. induction n as [|n IH]; intros nIndex Hi; [reflexivity|].
  cbn [getSupported_next replicate].
  assert (E : exists i, getSupported false nIndex s = (None, i) /\ g_nSupportedQuant <= i).
  { unfold getSupported.
    destruct (negb (g_nProtocol s =? UNSET)).
    - destruct (Z.ltb_spec nIndex (g_nProtocol s)).
      + destruct (Z.geb_spec (g_nProtocol s) g_nSupportedQuant); [|lia]. eauto.
      + exists g_nSupportedQuant. split; [reflexivity|lia].
    - destruct (Z.geb_spec nIndex g_nSupportedQuant); [|lia]. eauto. }
  destruct E as (i & -> & Hi'). cbn [fst snd]. f_equal. apply IH. exact Hi'.
Qed.

(** X18.  With no device active, [getSupported(true)] followed by calls
    [getSupported(false)] walks through [g_sSupported] from its first entry,
    in order, and returns NULL from then on, wherever the cursor stood
    before. *)
Theorem getSupported_lists_all_when_idle (n : nat) (nIndex : Z) (s : state) :
  g_nProtocol s = UNSET ->
  getSupported_listing n nIndex s
  = take (S n) (map Some g_sSupported ++ replicate n None).
Proof.
  intros Hp. unfold getSupported_listing.
  assert (E1 : getSupported true nIndex s = (Some (g_sSupported !!! 0%nat), 1)).
  { unfold getSupported. rewrite Hp. reflexivity. }
  rewrite E1. cbn [fst snd].
  destruct n as [|n]; [reflexivity|].
  cbn [getSupported_next].
  assert (E2 : getSupported false 1 s = (Some (g_sSupported !!! 1%nat), 2)).
  { unfold getSupported. rewrite Hp. reflexivity. }
  rewrite E2. cbn [fst snd].
  rewrite getSupported_exhausted by (unfold g_nSupportedQuant; cbn; lia).
  cbn [g_sSupported map app take]. rewrite take_replicate.
  replace (n `min` S n)%nat with n by lia. reflexivity.
Qed.

(** X19.  With a device active, the same calls return the name of the
    active device and then NULL: the other supported device is not
    listed. *)
Theorem getSupported_lists_active_only (n : nat) (nIndex : Z) (s : state) :
  g_nProtocol s = 0 \/ g_nProtocol s = 1 ->
  getSupported_listing n nIndex s
  = Some (g_sSupported !!! Z.to_nat (g_nProtocol s)) :: replicate n None.
Proof.
  intros Hp. unfold getSupported_listing.
  assert (E1 : getSupported true nIndex s
               = (Some (g_sSupported !!! Z.to_nat (g_nProtocol s)), g_nProtocol s + 1)).
  { unfold getSupported. destruct Hp as [-> | ->]; reflexivity. }
  rewrite E1. cbn [fst snd]. f_equal.
  destruct n as [|n]; [reflexivity|].
  cbn [getSupported_next replicate].
  assert (E2 : getSupported false (g_nProtocol s + 1) s = (None, g_nSupportedQuant)).
  { unfold getSupported. destruct Hp as [-> | ->]; reflexivity. }
  rewrite E2. cbn [fst snd]. f_equal.
  apply getSupported_exhausted. lia.
Qed.

(** X20.  [getSupported] never reads outside [g_sSupported]: whatever the
    cursor and the active protocol, a name it returns is one of the
    supported device names. *)
Theorem getSupported_returns_supported
    (reset : bool) (nIndex : Z) (s : state) (name : string) :
  0 <= nIndex ->
  0 <= g_nProtocol s ->
  (getSupported reset nIndex s).1 = Some name ->
  In name g_sSupported.
Proof.
  intros Hi Hp. unfold getSupported.
  set (i := if reset then _ else _).
  assert (H0 : 0 <= i).
  { subst i. destruct reset.
    - destruct (_ =? _); lia.
    - destruct (negb _); [|lia]. destruct (_ <? _); [lia|].
      unfold g_nSupportedQuant. cbn. lia. }
  destruct (Z.geb_spec i g_nSupportedQuant) as [|Hlt]; [discriminate|].
  cbn [fst]. intros [= <-].
  unfold g_nSupportedQuant in Hlt. cbn in Hlt.
  assert (Hi' : i = 0 \/ i = 1) by lia.
  destruct Hi' as [-> | ->]; cbn; auto.
Qed.

(** ** Mode selection and button releases *)

(** X21.  Pad mode selection is not range-checked: with the Launchkey Mini
    active and connected, [selectPads] queues [0xbf 3 mode] for every mode,
    the mode stored as a byte even when it is no MIDI data byte, and the
    internal [selectMode] queues the same message; with any other protocol
    active [selectPads] does nothing, and [selectMode] on the Launchpad Mini
    queues the nine-byte message that enters programmer mode. *)
Theorem mode_selection (mode : Z) (s : state) :
  link_ok s ->
  (g_nProtocol s = 0 ->
     selectPads mode s = set_g_vSendQueue (g_vSendQueue s ++ [[0xbf; 3; u8 mode]]) s
     /\ (u32 DEVICE_LAUNCHKEY_MINI_MK3 = 0 -> selectMode mode s = selectPads mode s))
  /\ (g_nProtocol s <> 0 -> selectPads mode s = s)
  /\ (g_nProtocol s = u32 DEVICE_LAUNCHPAD_MINI_MK3 ->
      u32 DEVICE_LAUNCHPAD_MINI_MK3 <> u32 DEVICE_LAUNCHKEY_MINI_MK3 ->
      selectMode mode s
      = set_g_vSendQueue
          (g_vSendQueue s ++ [[0xf0; 0x00; 0x20; 0x29; 0x02; 0x0d; 0x0e; 0x01; 0xf7]]) s).
Proof.
  intros Hok. split; [|split].
  - intros Hp.
    assert (E : selectPads mode s
                = set_g_vSendQueue (g_vSendQueue s ++ [[0xbf; 3; u8 mode]]) s).
    { unfold selectPads. rewrite Hp. change (0 =? 0) with true. cbv iota.
      rewrite isDeviceConnected_fixed by assumption. rewrite Hp.
      change (negb (0 =? UNSET)) with true. cbv iota.
      apply sendDeviceMidi3_accept; lia. }
    split; [exact E|]. intros Hlk. rewrite E. unfold selectMode.
    rewrite Hp, Hlk. change (0 =? 0) with true. cbv iota.
    apply sendDeviceMidi3_accept; lia.
  - intros Hp. unfold selectPads.
    destruct (Z.eqb_spec (g_nProtocol s) 0); [contradiction|reflexivity].
  - intros Hp Hne. unfold selectMode. rewrite Hp.
    destruct (Z.eqb_spec (u32 DEVICE_LAUNCHPAD_MINI_MK3) (u32 DEVICE_LAUNCHKEY_MINI_MK3));
      [contradiction|].
    rewrite Z.eqb_refl. apply sendDeviceMidi_accept; [discriminate|apply Z.leb_le; reflexivity].
Qed.

(** X22.  The buttons act on press only: releasing (value 0) any of the
    controls 102, 103, 104, 105, 115 and 117 changes nothing and publishes
    nothing, with shift held or not. *)
Theorem button_release_is_silent (s : state) (out : jack_midi_buffer) (t b0 b1 : Z) :
  g_nProtocol s = 0 ->
  Z.land b0 0xF0 = 0xb0 ->
  In b1 [102; 103; 104; 105; 115; 117] ->
  protocolHandler (Some {| time := t; buffer := [b0; b1; 0] |}) out s = (s, out).
Proof.
  intros Hp Hc Hin. unfold protocolHandler. decode_bytes. rewrite Hp, Hc.
  cbn [In] in Hin.
  destruct Hin as [<-|[<-|[<-|[<-|[<-|[<-|[]]]]]]];
    cbn; destruct (g_bShift s); reflexivity.
Qed.

End Translator.

(** * Worked examples *)

(** The examples run the library with the device indices 0 and 1 of
    [g_sSupported] for the Launchkey Mini and the Launchpad Mini, with the
    play-state codes 0 (stopped), 3 (starting), 4 (restarting), 1 (playing),
    2 (stopping) and 5 (disabled), and with JACK buffers that grant a region
    while the bytes fit ([reserve_by_room]). *)
Local Abbreviation run_notify := (notify 0 1 0 3 4 1 2 5) (only parsing).
Local Abbreviation run_decode := (protocolHandler reserve_by_room) (only parsing).
Local Abbreviation run_pad_status := (sendPadStatusToDevice 0 1 0 3 4 1 2 5) (only parsing).
Local Abbreviation run_osc_status := (onOscStatus 0 1 0 3 4 1 2 5) (only parsing).
Local Abbreviation run_enable := (enableDevice 0 1 0 3 4 1 2 5) (only parsing).
Local Abbreviation empty_buffer := {| buf_room := 1024; buf_events := [] |} (only parsing).

(** Both ends of a Launchkey Mini, respectively of a Launchpad Mini, are
    connected to the library's device ports. *)
Local Abbreviation launchkey_active :=
  (foldl run_notify started
     [(launchkey_port, own_input_port, 1); (own_device_output_port, launchkey_port, 1)])
  (only parsing).
Local Abbreviation launchpad_active :=
  (foldl run_notify started
     [(launchpad_port, own_input_port, 1); (own_device_output_port, launchpad_port, 1)])
  (only parsing).

(** Partial drain: three 3-byte events and room for two of them.  One drain
    leaves the third queued; a drain into a fresh buffer then sends it. *)
Example partial_drain_deferral :
  let queue := [[0x90; 96; 67]; [0x90; 97; 35]; [0x90; 98; 9]] in
  let first := drain_send_queue reserve_by_room queue {| buf_room := 6; buf_events := [] |} in
  let second := drain_send_queue reserve_by_room first.1 {| buf_room := 6; buf_events := [] |} in
  first.1 = [[0x90; 98; 9]]
  /\ buf_events first.2 = [[0x90; 96; 67]; [0x90; 97; 35]]
  /\ second.1 = []
  /\ buf_events second.2 = [[0x90; 98; 9]].
Proof. vm_compute. repeat split. Qed.

(** A Launchkey Mini becomes active on the second of its two connections. *)
Example launchkey_activation :
  link (foldl run_notify started [(launchkey_port, own_input_port, 1)]) = (0, UNSET, UNSET)
  /\ link launchkey_active = (0, 0, 0)
  /\ length (g_vSendQueue launchkey_active) = 34%nat
  /\ srv_methods (g_oscServer launchkey_active) = [("/sequence/status", "iiii"); ("smf", "i")]%string.
Proof. vm_compute. repeat split. Qed.

(** C3.  The code run on a disconnection.  With a Launchkey Mini active,
    the notification that its input side is disconnected turns the active
    protocol from 0 to unset, yet queues no message for the device, sends no
    OSC message and leaves both OSC methods registered and the server
    running.  The disable branch of [enableDevice], were it run on the
    active globals, would queue the session-mode-off message [0x9f 12 0],
    send the two unregister messages and remove both methods. *)
Theorem disconnect_skips_disable_sequence :
  let s := launchkey_active in
  let s' := run_notify s (launchkey_port, own_input_port, 0) in
  let disabled := run_enable false s in
  g_nProtocol s = 0
  /\ g_nProtocol s' = UNSET
  /\ g_vSendQueue s' = g_vSendQueue s
  /\ g_oscClient s' = g_oscClient s
  /\ g_oscServer s' = g_oscServer s
  /\ srv_methods (g_oscServer s) = [("/sequence/status", "iiii"); ("smf", "i")]%string
  /\ g_vSendQueue disabled = g_vSendQueue s ++ [[0x9f; 12; 0]]
  /\ map osc_path (g_oscClient disabled)
     = map osc_path (g_oscClient s) ++ ["/cuia/unregister"; "/cuia/unregister"]%string
  /\ g_oscServer disabled = {| srv_methods := []; srv_running := false |}.
Proof. vm_compute. repeat split. Qed.

(** C4, instance: the encodings of session pad 3 of an active Launchkey Mini. *)
Lemma pad_status_encoding_witness :
  exists pad,
    session_pad 0 1 launchkey_active 3 = Some pad
    /\ let colour := at_index (g_nPadColour launchkey_active) 3 in
       let emits status msgs :=
         run_pad_status 3 status launchkey_active
         = set_g_vSendQueue (g_vSendQueue launchkey_active ++ msgs) launchkey_active in
       emits 0 [[0x90; pad; colour]]
       /\ emits 3 [[0x90; pad; colour]; [0x91; pad; g_nStartingColour]]
       /\ emits 4 [[0x90; pad; colour]; [0x91; pad; g_nStartingColour]]
       /\ emits 1 [[0x92; pad; colour]]
       /\ emits 2 [[0x90; pad; colour]; [0x91; pad; g_nStoppingColour]]
       /\ emits 5 [[0x90; pad; 0]].
Proof.
  apply (pad_status_encoding 0 1 0 3 4 1 2 5 launchkey_active 3).
  - unfold status_codes_distinct. compute_done.
  - lia.
  - left. split; [reflexivity|lia].
Defined.

(** C5, counterexample: the bank message of the device is not
    range-checked and not confirmed.  Decoded with a Launchkey Mini active,
    the value 7 moves [g_nCCoffset] from 1 to 48, and the value 3 sets it to
    16 and queues nothing. *)
Lemma device_bank_message_unchecked :
  let s := launchkey_active in
  let decode value :=
    (run_decode (Some {| time := 0; buffer := [0xbf; 9; value] |}) empty_buffer s).1 in
  g_nCCoffset s = 1
  /\ g_nCCoffset (decode 7) = 48
  /\ g_nCCoffset (decode 3) = 16
  /\ g_vSendQueue (decode 3) = g_vSendQueue s.
Proof. vm_compute. repeat split. Qed.

(** C5, instance on an active Launchkey Mini: bank 7 is rejected, bank 3 is
    confirmed with one message, and the device's bank message with value 3
    sets the offset to 16. *)
Lemma bank_selection_witness :
  selectKnobs 7 launchkey_active = launchkey_active
  /\ (exists offset,
        selectKnobs 3 launchkey_active
        = set_g_vSendQueue (g_vSendQueue launchkey_active ++ [[0xbf; 9; 3]])
            (set_g_nCCoffset offset launchkey_active))
  /\ run_decode (Some {| time := 0; buffer := [0xbf; 9; 3] |}) empty_buffer launchkey_active
     = (set_g_nCCoffset (8 * (3 - 1)) launchkey_active, empty_buffer).
Proof.
  destruct (bank_selection reserve_by_room launchkey_active) as (Hrej & Hsel & Hdev);
    try reflexivity.
  split; [apply Hrej; lia|].
  split; [apply Hsel; lia|].
  apply Hdev. reflexivity.
Defined.

(** C6, counterexample: the forwarded controller number is a
    byte.  After the device's bank message with value 127 the offset is
    1008; turning knob 21 then forwards controller 5, not 21 + 1008. *)
Lemma knob_controller_wraps :
  let s :=
    (run_decode (Some {| time := 0; buffer := [0xbf; 9; 127] |}) empty_buffer
                launchkey_active).1 in
  let forwarded :=
    (run_decode (Some {| time := 1; buffer := [0xb0; 21; 64] |}) empty_buffer s).2 in
  g_bShift s = false
  /\ g_nCCoffset s = 1008
  /\ buf_events forwarded = [[0xb0; 5; 64]]
  /\ 5 <> 21 + g_nCCoffset s.
Proof. vm_compute. repeat split; discriminate. Qed.

(** C6, instance on an active Launchkey Mini: the play button (115) pressed with
    and without shift, and knob 21 turned with and without shift. *)
Lemma shift_gated_decode_witness :
  let s := launchkey_active in
  let press := Some {| time := 0; buffer := [0xb0; 115; 127] |} in
  let turn := Some {| time := 0; buffer := [0xb0; 21; 64] |} in
  g_oscClient (run_decode press empty_buffer (set_g_bShift false s)).1
  <> g_oscClient (run_decode press empty_buffer (set_g_bShift true s)).1
  /\ run_decode turn empty_buffer (set_g_bShift false s)
     = (set_g_bShift false s,
        buf_write empty_buffer
          [u8 (Z.lor 0xb0 (g_nMidiChannel s)); u8 (21 + g_nCCoffset s); u8 64])
  /\ run_decode turn empty_buffer (set_g_bShift true s)
     = (set_g_bShift true s,
        buf_write empty_buffer
          [u8 (Z.lor 0xb0 (g_nMidiChannel s)); u8 (21 + g_nCCoffset s + 40); u8 64]).
Proof.
  split.
  - apply (shift_gated_decode reserve_by_room launchkey_active empty_buffer 0 0xb0 115 127);
      [reflexivity | reflexivity | simpl; tauto | lia].
  - destruct (shift_gated_decode reserve_by_room launchkey_active empty_buffer 0 0xb0 21 64)
      as [_ Hknob]; [reflexivity | reflexivity |].
    destruct Hknob as (Hun & Hsh & _); [lia | reflexivity |].
    split; [exact Hun | exact Hsh].
Defined.

(** C7, counterexample: [sendDeviceMidi3] drops a three-byte
    message that starts with a status byte when both data bytes are above
    127. *)
Lemma sendDeviceMidi3_extra_check :
  sendDeviceMidi3 0x90 200 200 started = started
  /\ g_vSendQueue (sendDeviceMidi3 0x90 200 200 started) = [].
Proof. vm_compute. repeat split. Qed.

(** C7, instance: a system-exclusive message and a note message are queued, an
    empty message, a message starting with a data byte and a three-byte
    message with two data bytes above 127 are dropped. *)
Lemma message_construction_checks_witness :
  sendDeviceMidi [0xf0; 0x00; 0xf7] started
  = set_g_vSendQueue (g_vSendQueue started ++ [[0xf0; 0x00; 0xf7]]) started
  /\ sendDeviceMidi [] started = started
  /\ sendDeviceMidi [0x7f; 0x90] started = started
  /\ sendDeviceMidi3 0x90 96 200 started
     = set_g_vSendQueue (g_vSendQueue started ++ [[0x90; 96; 200]]) started
  /\ sendDeviceMidi3 0x90 200 200 started = started.
Proof.
  destruct (message_construction_checks started) as (Hdrop & Hkeep & Hdrop3 & Hkeep3).
  split; [|split; [|split; [|split]]].
  - apply Hkeep. intros [H|H]; [discriminate H | vm_compute in H; discriminate H].
  - apply Hdrop. left. reflexivity.
  - apply Hdrop. right. reflexivity.
  - apply Hkeep3. intros [H|[H _]]; vm_compute in H; discriminate H.
  - apply Hdrop3. right. split; reflexivity.
Defined.

(** C8, counterexample: with the 16-pad Launchkey Mini active,
    a status notification for sequence 20 queues nothing but changes the
    stored colour of pad 20 from 0 to 47. *)
Lemma out_of_range_status_stores_colour :
  let s := launchkey_active in
  let s' := run_osc_status [0; 20; 0; 3] s in
  g_vSendQueue s' = g_vSendQueue s
  /\ at_index (g_nPadColour s) 20 = 0
  /\ at_index (g_nPadColour s') 20 = 47
  /\ g_nPadColour s' <> g_nPadColour s.
Proof. vm_compute. repeat split; discriminate. Qed.

(** C8, instance on an active Launchkey Mini: pad 16 through
    [sendPadStatusToDevice], sequence 64 and sequence 20 through the status
    notification. *)
Lemma out_of_range_pad_requests_witness :
  let s := launchkey_active in
  run_pad_status 16 1 s = s
  /\ run_osc_status [0; 64; 1; 3] s = s
  /\ run_osc_status [0; 20; 1; 3] s
     = set_g_nPadColour
         (<[Z.to_nat (u8 (at_index [0; 20; 1; 3] 1))
            := at_index g_nPadColours (u8 (at_index [0; 20; 1; 3] 3) mod 16)]>
            (g_nPadColour s)) s.
Proof.
  destruct (out_of_range_pad_requests 0 1 0 3 4 1 2 5 launchkey_active)
    as (Hpad & Hhigh & Hmid).
  split; [|split].
  - apply Hpad; [intros _; lia | intros H; vm_compute in H; discriminate H].
  - apply Hhigh. reflexivity.
  - apply Hmid; [simpl; lia | reflexivity | discriminate | vm_compute; split; discriminate].
Defined.

(** C9, counterexample: activating the Launchpad Mini queues
    the layout message alone; no pad is addressed and no knob bank is
    selected. *)
Lemma launchpad_activation_sends_layout_only :
  g_nProtocol launchpad_active = 1
  /\ g_vSendQueue launchpad_active = [[0xf0; 0x00; 0x20; 0x29; 0x02; 0x0d; 0x00; 0x7f; 0xf7]]
  /\ g_nCCoffset launchpad_active = g_nCCoffset started.
Proof. vm_compute. repeat split. Qed.

(** C9, instance: the enable sequence on the globals of a connected Launchkey
    Mini and of a connected Launchpad Mini. *)
Lemma enable_sequence_witness :
  (g_vSendQueue (run_enable true launchkey_active)
   = g_vSendQueue launchkey_active
     ++ [[0x9f; 12; 127]]
     ++ map (fun pad => [0x99; at_index g_nDrumPads pad; g_nDrumColour]) (seqZ 0 16)
     ++ map (fun pad => [0x90; at_index g_nLKM3SessionPads pad;
                         at_index (g_nPadColour launchkey_active) pad]) (seqZ 0 16)
     ++ [[0xbf; 9; 1]]
   /\ g_nCCoffset (run_enable true launchkey_active) = 1)
  /\ g_vSendQueue (run_enable true launchpad_active)
     = g_vSendQueue launchpad_active
       ++ [[0xf0; 0x00; 0x20; 0x29; 0x02; 0x0d; 0x00; 0x7f; 0xf7]].
Proof.
  split.
  - destruct (enable_sequence 0 1 0 3 4 1 2 5 launchkey_active) as [Hkey _];
      [reflexivity | reflexivity | lia |].
    destruct Hkey as (Hq & Hcc & _); [reflexivity | reflexivity |].
    split; [exact Hq | exact Hcc].
  - destruct (enable_sequence 0 1 0 3 4 1 2 5 launchpad_active) as [_ Hpad];
      [reflexivity | reflexivity | lia |].
    destruct Hpad as (Hq & _); [discriminate | discriminate | reflexivity |].
    exact Hq.
Defined.

(** C10, instance: a nine-byte system-exclusive event from the device. *)
Lemma protocolHandler_ignores_other_sizes_witness :
  run_decode
    (Some {| time := 0; buffer := [0xf0; 0x00; 0x20; 0x29; 0x02; 0x0d; 0x0e; 0x01; 0xf7] |})
    empty_buffer launchkey_active
  = (launchkey_active, empty_buffer).
Proof.
  apply (protocolHandler_ignores_other_sizes reserve_by_room). discriminate.
Defined.

(** * Worked examples for the further properties *)

Local Abbreviation run_api := (api_step 0 1 0 3 4 1 2 5 reserve_by_room) (only parsing).
Local Abbreviation run_process := (onJackProcess reserve_by_room) (only parsing).
Local Abbreviation run_connect := (onJackConnect 0 1 0 3 4 1 2 5) (only parsing).
Local Abbreviation grant_all :=
  (fun (_ : jack_midi_buffer) (_ _ : Z) => true) (only parsing).
Local Abbreviation small_buffer := {| buf_room := 6; buf_events := [] |} (only parsing).
Local Abbreviation launchkey_calls :=
  [JackConnect launchkey_port own_input_port 1;
   JackConnect own_device_output_port launchkey_port 1] (only parsing).
Local Abbreviation pad_press :=
  {| time := 0; buffer := [0x90; 113; 100] |} (only parsing).

(** X2, instance: a Launchkey Mini connected through the entry points, then
    one process cycle into a buffer with room for two messages. *)
Lemma device_messages_start_with_status_witness :
  Forall starts_with_status (g_vSendQueue (foldl run_api started launchkey_calls))
  /\ Forall starts_with_status
       (buf_events
          (run_process [pad_press] empty_buffer small_buffer
                       (foldl run_api started launchkey_calls)).2).
Proof.
  destruct (device_messages_start_with_status 0 1 0 3 4 1 2 5 reserve_by_room
              true 1 2 3 launchkey_calls [pad_press] empty_buffer small_buffer)
    as [Hq Hdev].
  split; [exact Hq|]. apply Hdev. reflexivity.
Defined.

(** X3, instance: channel 16 is ignored and channel 9 is stored. *)
Lemma midi_channel_stays_in_range_witness :
  run_api (foldl run_api started launchkey_calls) (SetMidiChannel 16)
  = foldl run_api started launchkey_calls
  /\ g_nMidiChannel (run_api (foldl run_api started launchkey_calls) (SetMidiChannel 9))
     = u32 9.
Proof.
  split.
  - apply (midi_channel_stays_in_range 0 1 0 3 4 1 2 5 reserve_by_room
             true 1 2 3 launchkey_calls 16). vm_compute. discriminate.
  - apply (midi_channel_stays_in_range 0 1 0 3 4 1 2 5 reserve_by_room
             true 1 2 3 launchkey_calls 9). reflexivity.
Defined.

(** X5, instance: three queued messages and a JACK that grants everything. *)
Lemma drain_with_room_empties_queue_witness :
  drain_send_queue grant_all [[0x90; 96; 67]; [0x90; 97; 35]; [0x90; 98; 9]] small_buffer
  = ([], {| buf_room := 6;
            buf_events := [] ++ [[0x90; 96; 67]; [0x90; 97; 35]; [0x90; 98; 9]] |}).
Proof.
  apply (drain_with_room_empties_queue grant_all). intros b n. reflexivity.
Defined.

(** X7, instance: a cycle on an active Launchkey Mini with one pad press and
    a device buffer too small for the 34 queued messages. *)
Lemma process_cycle_conserves_messages_witness :
  let decoded := decode_events reserve_by_room [pad_press]
                   (jack_midi_clear_buffer empty_buffer) launchkey_active in
  let cycle := run_process [pad_press] empty_buffer small_buffer launchkey_active in
  g_vSendQueue decoded.1 = buf_events cycle.2 ++ g_vSendQueue cycle.1.1
  /\ cycle.1.2 = decoded.2
  /\ buf_room cycle.2 = buf_room small_buffer.
Proof.
  apply (process_cycle_conserves_messages reserve_by_room
           [pad_press] empty_buffer small_buffer launchkey_active).
  reflexivity.
Defined.

(** X8, instance: the same cycle. *)
Lemma process_cycle_output_bounded_witness :
  let cycle := run_process [pad_press] empty_buffer small_buffer launchkey_active in
  (length (buf_events cycle.1.2) <= length [pad_press])%nat
  /\ (length (g_oscClient cycle.1.1)
      <= length (g_oscClient launchkey_active) + length [pad_press])%nat
  /\ (length (buf_events cycle.2) + length (g_vSendQueue cycle.1.1)
      <= length (g_vSendQueue launchkey_active) + length [pad_press])%nat.
Proof.
  apply (process_cycle_output_bounded reserve_by_room
           [pad_press] empty_buffer small_buffer launchkey_active).
  reflexivity.
Defined.

(** X9, instance: the same input while a Launchpad Mini is active. *)
Lemma process_cycle_without_launchkey_witness :
  let cycle := run_process [pad_press] empty_buffer empty_buffer launchpad_active in
  cycle.1.2 = jack_midi_clear_buffer empty_buffer
  /\ cycle.1.1
     = set_g_vSendQueue
         (drain_send_queue reserve_by_room (g_vSendQueue launchpad_active)
                           (jack_midi_clear_buffer empty_buffer)).1 launchpad_active
  /\ cycle.2
     = (drain_send_queue reserve_by_room (g_vSendQueue launchpad_active)
                         (jack_midi_clear_buffer empty_buffer)).2.
Proof.
  apply (process_cycle_without_launchkey reserve_by_room
           [pad_press] empty_buffer empty_buffer launchpad_active);
    [reflexivity | discriminate].
Defined.

(** X10, instance: the pad of sequence 9 is note 113. *)
Lemma session_pad_press_toggles_its_sequence_witness :
  run_decode
    (Some {| time := 0; buffer := [0x90; at_index g_nLKM3SessionPads 9; 100] |})
    empty_buffer launchkey_active
  = (osc_send "/cuia/TOGGLE_SEQUENCE" "i" [OscInt 9] launchkey_active, empty_buffer).
Proof.
  apply (session_pad_press_toggles_its_sequence reserve_by_room);
    [reflexivity | reflexivity | lia].
Defined.

(** X11, instance: drum pad 40 hit on channel 1. *)
Lemma drum_pad_hit_witness :
  run_decode (Some {| time := 0; buffer := [0x90; 40; 100] |}) empty_buffer launchkey_active
  = (set_g_vSendQueue (g_vSendQueue launchkey_active ++ [[0x99; 40; g_nDrumOnColour]])
       launchkey_active,
     if reserve_by_room empty_buffer 0 3
     then buf_write empty_buffer [0x99; u8 40; u8 100] else empty_buffer).
Proof.
  destruct (drum_pad_hit reserve_by_room launchkey_active empty_buffer 0 0x90 40 100)
    as [Hon _]; [reflexivity | lia |].
  apply Hon. reflexivity.
Defined.

(** X12, instance: shift pressed and released on an active Launchkey Mini. *)
Lemma shift_press_release_witness :
  let pressed :=
    run_decode (Some {| time := 0; buffer := [0xb0; 108; 127] |}) empty_buffer
               launchkey_active in
  pressed = (set_g_bShift true launchkey_active, empty_buffer)
  /\ run_decode (Some {| time := 0; buffer := [0xb0; 108; 0] |}) pressed.2 pressed.1
     = (launchkey_active, empty_buffer).
Proof.
  apply (shift_press_release reserve_by_room launchkey_active empty_buffer 0 0xb0 127);
    [reflexivity | reflexivity | reflexivity | discriminate].
Defined.

(** X13, instance: sequence 3 of group 5 starts playing. *)
Lemma status_notification_recolours_pad_witness :
  let colour := at_index g_nPadColours (5 mod 16) in
  run_osc_status [0; 3; 1; 5] launchkey_active
  = set_g_vSendQueue
      (g_vSendQueue launchkey_active ++ [[0x92; at_index g_nLKM3SessionPads 3; colour]])
      (set_g_nPadColour (<[Z.to_nat 3 := colour]> (g_nPadColour launchkey_active))
         launchkey_active).
Proof.
  apply (status_notification_recolours_pad 0 1 0 3 4 1 2 5 launchkey_active 0 3 5).
  - unfold status_codes_distinct. compute_done.
  - lia.
  - reflexivity.
  - reflexivity.
  - lia.
  - lia.
Defined.

(** X14, instance: an unsupported keyboard connects to the device input
    port. *)
Lemma foreign_notification_ignored_witness :
  run_connect {| port_ptr := 20; port_aliases := ["in-hw-3-0-0-Some-Keyboard-MIDI-1"]%string |}
              own_input_port 1 launchkey_active
  = launchkey_active.
Proof.
  apply (foreign_notification_ignored 0 1 0 3 4 1 2 5). right.
  intros alias token Ha Ht. cbn [port_aliases app In own_input_port] in Ha.
  destruct Ha as [<-|[]]. cbn [In g_sSupported] in Ht.
  destruct Ht as [<-|[<-|[]]]; reflexivity.
Defined.

(** X15, instance: the input side of a Launchkey Mini connects first. *)
Lemma input_notification_recorded_witness :
  let s' := run_connect launchkey_port own_input_port 1 started in
  let recorded := if truthy 1 then 0 else UNSET in
  g_nInputProtocol s' = recorded
  /\ g_nOutputProtocol s' = g_nOutputProtocol started
  /\ g_nProtocol s' = (if recorded =? g_nOutputProtocol started then recorded else UNSET).
Proof.
  apply (input_notification_recorded 0 1 0 3 4 1 2 5 launchkey_port own_input_port
           "in-hw-1-0-0-Launchkey-Mini-MK3-MIDI-2" 1 0 started);
    first [reflexivity | left; reflexivity].
Defined.

(** X16, instance: the output side of a Launchpad Mini connects after its
    input side. *)
Lemma output_notification_recorded_witness :
  let s := run_connect launchpad_port own_input_port 1 started in
  let s' := run_connect own_device_output_port launchpad_port 1 s in
  let recorded := if truthy 1 then 1 else UNSET in
  g_nOutputProtocol s' = recorded
  /\ g_nInputProtocol s' = g_nInputProtocol s
  /\ g_nProtocol s' = (if g_nInputProtocol s =? recorded then recorded else UNSET).
Proof.
  apply (output_notification_recorded 0 1 0 3 4 1 2 5 own_device_output_port launchpad_port
           "in-hw-2-0-0-Launchpad-Mini-MK3-MIDI-2" 1 1
           (run_connect launchpad_port own_input_port 1 started));
    first [reflexivity | discriminate | right; reflexivity].
Defined.

(** X17, instance: a status notification before any device is connected. *)
Lemma nothing_queued_without_device_witness :
  exists sent,
    g_vSendQueue started = sent ++ g_vSendQueue (run_api started (OscStatus [0; 3; 1; 5])).
Proof.
  apply (nothing_queued_without_device 0 1 0 3 4 1 2 5 reserve_by_room
           (OscStatus [0; 3; 1; 5]) started);
    first [reflexivity | discriminate].
Defined.

(** X18, instance: four calls with no device active. *)
Lemma getSupported_lists_all_when_idle_witness :
  getSupported_listing 3 7 started
  = take 4 (map Some g_sSupported ++ replicate 3 None).
Proof. apply (getSupported_lists_all_when_idle 3 7 started). reflexivity. Defined.

(** X19, instance: three calls with a Launchpad Mini active. *)
Lemma getSupported_lists_active_only_witness :
  getSupported_listing 2 0 launchpad_active
  = Some (g_sSupported !!! Z.to_nat (g_nProtocol launchpad_active)) :: replicate 2 None.
Proof.
  apply (getSupported_lists_active_only 2 0 launchpad_active). right. reflexivity.
Defined.

(** X20, instance: the first name listed with no device active. *)
Lemma getSupported_returns_supported_witness :
  (getSupported true 0 started).1 = Some "Launchkey-Mini-MK3-MIDI-2"%string
  /\ In "Launchkey-Mini-MK3-MIDI-2"%string g_sSupported.
Proof.
  split; [reflexivity|].
  apply (getSupported_returns_supported true 0 started "Launchkey-Mini-MK3-MIDI-2");
    [lia | discriminate | reflexivity].
Defined.

(** X21, instance: pad mode 200 on an active Launchkey Mini. *)
Lemma mode_selection_witness :
  selectPads 200 launchkey_active
  = set_g_vSendQueue (g_vSendQueue launchkey_active ++ [[0xbf; 3; u8 200]]) launchkey_active
  /\ selectMode 0 1 200 launchkey_active = selectPads 200 launchkey_active
  /\ selectPads 200 launchpad_active = launchpad_active.
Proof.
  destruct (mode_selection 0 1 200 launchkey_active) as (Hkey & _ & _); [reflexivity|].
  destruct Hkey as [Hpads Hmode]; [reflexivity|].
  destruct (mode_selection 0 1 200 launchpad_active) as (_ & Hother & _); [reflexivity|].
  split; [exact Hpads|]. split; [apply Hmode; reflexivity|].
  apply Hother. discriminate.
Defined.

(** X22, instance: the play button released. *)
Lemma button_release_is_silent_witness :
  run_decode (Some {| time := 0; buffer := [0xb0; 115; 0] |}) empty_buffer launchkey_active
  = (launchkey_active, empty_buffer).
Proof.
  apply (button_release_is_silent reserve_by_room);
    [reflexivity | reflexivity | simpl; tauto].
Defined.

(** The whole path once: a Launchkey Mini connects, a first cycle with room
    sends the enable sequence, the press of session pad 113 publishes the
    toggle of sequence 9 and sends nothing to the device, and the playing
    notification for sequence 9 of group 5 reaches the device in the next
    cycle as one message. *)
Example pad_press_then_playing_status :
  let s1 := (run_process [] empty_buffer empty_buffer launchkey_active).1.1 in
  let pressed := run_process [pad_press] empty_buffer empty_buffer s1 in
  let s2 := run_osc_status [0; 9; 1; 5] pressed.1.1 in
  let shown := run_process [] empty_buffer empty_buffer s2 in
  g_vSendQueue s1 = []
  /\ map osc_path (g_oscClient pressed.1.1)
     = ["/cuia/register"; "/cuia/register"; "/cuia/TOGGLE_SEQUENCE"]%string
  /\ buf_events pressed.2 = []
  /\ buf_events shown.2 = [[0x92; 113; 63]]
  /\ g_vSendQueue shown.1.1 = [].
Proof. vm_compute. repeat split. Qed.
